(** * qudi.util.datafitting: fit configurations, their list model and the
      fit container, embedded from [src/qudi/util/datafitting.py].

    Python objects are modelled by value: records for the classes, [gmap]
    for dicts ([lmfit.Parameters] is a dict subclass), [list] for Python
    lists and tuples, [option] for values that may be [None].  The numbers
    in the arrays are of type [Qc]; the module does no arithmetic on them
    itself, and numpy, lmfit and the fit models, which do, are parameters.
    Exceptions, Qt signals, mutex operations and the calls into a fit model
    are made explicit: every method is a function from the object state to
    an outcome (result or exception, new state, trace of events). *)

From Stdlib Require Import Ascii String QArith Qcanon.
From stdpp Require Import numbers gmap strings list fin_maps.

Open Scope list_scope.

(* ===================================================================== *)
(** ** Python exceptions *)
(* ===================================================================== *)

Module py.

(** The [assert] statements of the module, one constructor per statement
    (the message of the statement is given next to it). *)
Inductive assertion : Type :=
| name_must_be_str          (* 'FitConfiguration name must be str type.' *)
| name_must_be_non_empty    (* 'FitConfiguration name must be non-empty string.' *)
| invalid_fit_model (model : string)        (* 'Invalid fit model name encountered: ...' *)
| reserved_name             (* '"No Fit" is a reserved name for fit configs. Choose another.' *)
| invalid_estimator         (* 'Invalid fit model estimator encountered: ...' *)
| invalid_model_parameters (invalid : gset string) (* 'Invalid model parameters encountered: ...' *)
| custom_parameters_type    (* 'Property custom_parameters must be of type <lmfit.Parameters>.' *)
| dict_repr_keys            (* assert set(dict_repr) == {...}, no message *)
| already_defined (name : string).          (* 'Fit config "..." already defined.' *)

(** The exceptions the module can raise or let through.  [Foreign] is an
    exception raised inside a fit model or inside lmfit; it carries the
    names of the classes it is an instance of. *)
Inductive exception : Type :=
| AssertionError (a : assertion)
| ValueError (msg : string)
| TypeError
| IndexError
| KeyError (key : string)
| Foreign (classes : list string).

(** Method resolution order of the class of a raised exception, by class
    name (Python's built-in hierarchy). *)
Definition mro (e : exception) : list string :=
  match e with
  | AssertionError _ => ["AssertionError"; "Exception"; "BaseException"; "object"]
  | ValueError _ => ["ValueError"; "Exception"; "BaseException"; "object"]
  | TypeError => ["TypeError"; "Exception"; "BaseException"; "object"]
  | IndexError => ["IndexError"; "LookupError"; "Exception"; "BaseException"; "object"]
  | KeyError _ => ["KeyError"; "LookupError"; "Exception"; "BaseException"; "object"]
  | Foreign classes => classes
  end.

(** [isinstance(e, cls)] for a class given by its name. *)
Definition isinstance (e : exception) (cls : string) : bool :=
  bool_decide (cls ∈ mro e).

(** The result of a call: a value, or a raised exception. *)
Inductive result (A : Type) : Type :=
| Ok (a : A)
| Raise (e : exception).
Arguments Ok {A} a.
Arguments Raise {A} e.

(** "The call fails with [cls]": it raises an instance of that class. *)
Definition fails_with {A} (r : result A) (cls : string) : Prop :=
  match r with
  | Ok _ => False
  | Raise e => isinstance e cls = true
  end.

Definition succeeds {A} (r : result A) : Prop :=
  match r with Ok _ => True | Raise _ => False end.

(** Sequencing of calls that can raise. *)
Definition and_then {A B} (r : result A) (k : A → result B) : result B :=
  match r with
  | Ok a => k a
  | Raise e => Raise e
  end.

(** [assert cond, msg]. *)
Definition assert (cond : bool) (msg : assertion) : result unit :=
  if cond then Ok tt else Raise (AssertionError msg).

End py.

(* ===================================================================== *)
(** ** numpy: the one function the module uses *)
(* ===================================================================== *)

Module np.

(** An integer as a float. *)
Definition of_nat (n : nat) : Qc := Q2Qc (inject_Z (Z.of_nat n)).

End np.

(* ===================================================================== *)
(** ** lmfit: parameters and fit results, as far as the module reads them *)
(* ===================================================================== *)

Module lmfit.

(** A float attribute that may hold [nan] or an infinity ([min] and [max]
    default to the infinities). *)
Inductive float : Type :=
| finite (q : Qc)
| inf (negative : bool)
| nan.

(** [lmfit.Parameter] (the name is a reserved word here): the attributes
    read or set in this module. *)
Record Param : Type := {
  value : float;
  vary : bool;
  min : float;
  max : float;
  stderr : option float
}.

(** [lmfit.Parameters] is a dict from parameter name to [Param]. *)
Abbreviation Parameters := (gmap string Param).

(** [lmfit.model.ModelResult], with the attribute [high_res_best_fit]
    that [FitContainer.fit_data] adds to it. *)
Record ModelResult : Type := {
  params : Parameters;
  best_values : gmap string Qc;
  high_res_best_fit : option (list Qc * list Qc)
}.

End lmfit.

(* ===================================================================== *)
(** ** Python values that take part in the dict representation *)
(* ===================================================================== *)

Module pyval.

(** The values that occur as constructor arguments and in the dict
    representation of a configuration: [None], a [str], or an
    [lmfit.Parameters] object. *)
Inductive value : Type :=
| none
| str (s : string)
| parameters (p : lmfit.Parameters).

(** The double quote character, for the f-string messages. *)
Definition dquote : string := String (Ascii.ascii_of_nat 34) EmptyString.

(** [set(s)] for a string: the set of its one-character substrings. *)
Fixpoint chars (s : string) : gset string :=
  match s with
  | EmptyString => ∅
  | String c rest => {[ String c EmptyString ]} ∪ chars rest
  end.

(** [seq.index(v)] on a tuple of strings: the first position, or [None]
    where Python raises [ValueError]. *)
Fixpoint index (v : string) (seq : list string) : option nat :=
  match seq with
  | [] => None
  | s :: rest => if decide (s = v) then Some 0 else S <$> index v rest
  end.

(** [seq.pop(i)] on a list, for an index in range. *)
Definition pop {A} (i : nat) (seq : list A) : list A := take i seq ++ drop (S i) seq.

End pyval.

(* ===================================================================== *)
(** ** Fit models ([qudi.util.fit_models.model.FitModelBase] instances) *)
(* ===================================================================== *)

Module FitModelBase.

(** What the module uses of a fit model instance.  The calls into the
    model can raise. *)
Record t : Type := {
  estimators : gmap string (list Qc → list Qc → py.result lmfit.Parameters);
  make_params : lmfit.Parameters;
  fit : list Qc → lmfit.Parameters → list Qc → py.result lmfit.ModelResult;
  eval : gmap string Qc → list Qc → py.result (list Qc)
}.

End FitModelBase.

(* ===================================================================== *)
(** ** Events and the outcome of a method call *)
(* ===================================================================== *)

(** Qt signals and model notifications, mutex operations, accesses to the
    last-fit attributes and calls into a fit model, in the order they
    happen. *)
Inductive Event : Type :=
| beginInsertRows (first last : nat)
| endInsertRows
| beginRemoveRows (first last : nat)
| endRemoveRows
| beginResetModel
| endResetModel
| sigFitConfigurationsChanged (names : list string)
| sigLastFitResultChanged (fit_config : string) (fit_result : option lmfit.ModelResult)
| lock_acquire
| lock_release
| write_last_fit_result (fit_result : option lmfit.ModelResult)
| write_last_fit_config (fit_config : string)
| read_last_fit
| call_estimator (model estimator : string) (data x : list Qc)
| call_fit (model : string) (data : list Qc) (parameters : lmfit.Parameters) (x : list Qc)
| call_eval (model : string) (best_values : gmap string Qc) (x : list Qc)
| log_warning.

(** The outcome of running a method on an object state [S]. *)
Record outcome (S A : Type) : Type := {
  returned : py.result A;
  state : S;
  emitted : list Event
}.
Arguments returned {S A} o.
Arguments state {S A} o.
Arguments emitted {S A} o.

(** Methods are state transformers that can raise and that emit events. *)
Definition method (S A : Type) : Type := S → outcome S A.

Definition ret {S A} (a : A) : method S A :=
  λ s, {| returned := py.Ok a; state := s; emitted := [] |}.

Definition raise {S A} (e : py.exception) : method S A :=
  λ s, {| returned := py.Raise e; state := s; emitted := [] |}.

(** An exception stops the rest of the body; the state keeps what was
    assigned before it was raised. *)
Definition bind {S A B} (m : method S A) (k : A → method S B) : method S B :=
  λ s,
    match m s with
    | {| returned := py.Ok a; state := s'; emitted := t |} =>
        match k a s' with
        | {| returned := r; state := s''; emitted := t' |} =>
            {| returned := r; state := s''; emitted := t ++ t' |}
        end
    | {| returned := py.Raise e; state := s'; emitted := t |} =>
        {| returned := py.Raise e; state := s'; emitted := t |}
    end.

Definition emit {S} (e : Event) : method S unit :=
  λ s, {| returned := py.Ok tt; state := s; emitted := [e] |}.

Definition get {S} : method S S :=
  λ s, {| returned := py.Ok s; state := s; emitted := [] |}.

Definition put {S} (s : S) : method S unit :=
  λ _, {| returned := py.Ok tt; state := s; emitted := [] |}.

(** A call whose result or exception is known. *)
Definition call {S A} (r : py.result A) : method S A :=
  λ s, {| returned := r; state := s; emitted := [] |}.

(** [with lock: body]: the lock is released when the body returns and
    when it raises. *)
Definition with_lock {S A} (body : method S A) : method S A :=
  λ s,
    match body s with
    | {| returned := r; state := s'; emitted := t |} =>
        {| returned := r; state := s'; emitted := lock_acquire :: t ++ [lock_release] |}
    end.

Declare Scope method_scope.
Delimit Scope method_scope with method.
Notation "x <~ m ;; k" := (bind m (λ x, k))
  (at level 100, m at next level, right associativity,
   format "'[v' x  <~  m  ;;  '/' k ']'") : method_scope.
Notation "m ;;; k" := (bind m (λ _, k))
  (at level 100, right associativity,
   format "'[v' m  ;;;  '/' k ']'") : method_scope.

(* ===================================================================== *)
(** ** The module itself *)
(* ===================================================================== *)

(** [FitConfiguration]: the four private attributes. *)
Record FitConfiguration : Type := {
  _name : string;
  _model : string;
  _estimator : option string;
  _custom_parameters : option lmfit.Parameters
}.

(** [FitConfigurationsModel]: the list of configurations it holds (the Qt
    base class keeps no state of its own that the module reads). *)
Record FitConfigurationsModel : Type := {
  _fit_configurations : list FitConfiguration
}.

(** [FitContainer]: the configuration model it refers to and the last-fit
    pair.  The mutex [_access_lock] shows in the events. *)
Record FitContainer : Type := {
  _configuration_model : FitConfigurationsModel;
  _last_fit_result : option lmfit.ModelResult;
  _last_fit_config : string
}.

(** One entry of the dict handed to [create_formatted_output]. *)
Record format_entry : Type := {
  entry_value : lmfit.float;
  entry_error : option lmfit.float;
  entry_unit : string
}.

Section datafitting.

(** The global [_fit_models]: model name to model class; looking a class
    up and calling it gives a model instance. *)
Variable _fit_models : gmap string FitModelBase.t.

(** [lmfit.Parameters.dumps] and [lmfit.Parameters().loads]: the string
    serialisation of lmfit; [loads] raises on a string it cannot parse. *)
Variable dumps : lmfit.Parameters → string.
Variable loads : string → py.result lmfit.Parameters.

(** [qudi.util.units.create_formatted_output]. *)
Variable create_formatted_output : gmap string format_entry → string.

(** [np.linspace(start, stop, num)] of numpy, with its default
    [endpoint=True]: the array of the [num] samples. *)
Variable linspace : Qc → Qc → nat → list Qc.

(** *** class FitConfiguration *)

Definition name (self : FitConfiguration) : string := _name self.
Definition model (self : FitConfiguration) : string := _model self.
Definition estimator (self : FitConfiguration) : option string := _estimator self.

(** [_fit_models[self._model]()]: [KeyError] for a name that is no key. *)
Definition instantiate (model_name : string) : py.result FitModelBase.t :=
  match _fit_models !! model_name with
  | Some m => py.Ok m
  | None => py.Raise (py.KeyError model_name)
  end.

Definition available_estimators (self : FitConfiguration) : py.result (list string) :=
  py.and_then (instantiate (_model self)) (λ m,
  py.Ok (map_to_list (FitModelBase.estimators m)).*1).

(** [make_params()] returns a [Parameters] object here, so the branch
    for [None] of the source is not taken. *)
Definition default_parameters (self : FitConfiguration) : py.result lmfit.Parameters :=
  py.and_then (instantiate (_model self)) (λ m,
  py.Ok (FitModelBase.make_params m)).

(** The getter returns a copy, which is the same value. *)
Definition custom_parameters (self : FitConfiguration) : option lmfit.Parameters :=
  _custom_parameters self.

(** [value in self.available_estimators]: an element of the tuple equal
    to [value]; only a [str] is equal to a [str]. *)
Definition in_tuple (value : pyval.value) (tuple : list string) : bool :=
  match value with
  | pyval.str s => bool_decide (s ∈ tuple)
  | _ => false
  end.

(** The [estimator] setter. *)
Definition set_estimator (self : FitConfiguration) (value : pyval.value)
  : py.result FitConfiguration :=
  match value with
  | pyval.none =>
      py.Ok {| _name := _name self; _model := _model self; _estimator := None;
               _custom_parameters := _custom_parameters self |}
  | _ =>
      py.and_then (available_estimators self) (λ available,
      py.and_then (py.assert (in_tuple value available) py.invalid_estimator) (λ _,
      match value with
      | pyval.str s =>
          py.Ok {| _name := _name self; _model := _model self; _estimator := Some s;
                   _custom_parameters := _custom_parameters self |}
      | _ => py.Raise (py.AssertionError py.invalid_estimator)
      end))
  end.

(** [set(value)]: the keys of a [Parameters] dict, the characters of a
    string. *)
Definition set_of (value : pyval.value) : gset string :=
  match value with
  | pyval.none => ∅
  | pyval.str s => pyval.chars s
  | pyval.parameters p => dom p
  end.

(** The [custom_parameters] setter; it stores a copy. *)
Definition set_custom_parameters (self : FitConfiguration) (value : pyval.value)
  : py.result FitConfiguration :=
  match value with
  | pyval.none =>
      py.Ok {| _name := _name self; _model := _model self; _estimator := _estimator self;
               _custom_parameters := None |}
  | _ =>
      py.and_then (default_parameters self) (λ default_params,
      let invalid := set_of value ∖ dom default_params in
      py.and_then (py.assert (bool_decide (invalid = ∅))
                     (py.invalid_model_parameters invalid)) (λ _,
      match value with
      | pyval.parameters p =>
          py.Ok {| _name := _name self; _model := _model self;
                   _estimator := _estimator self; _custom_parameters := Some p |}
      | _ => py.Raise (py.AssertionError py.custom_parameters_type)
      end))
  end.

(** [model in _fit_models]: a dict (so a [Parameters] object) cannot be
    hashed. *)
Definition in_fit_models (model : pyval.value) : py.result bool :=
  match model with
  | pyval.str m => py.Ok (bool_decide (is_Some (_fit_models !! m)))
  | pyval.none => py.Ok false
  | pyval.parameters _ => py.Raise py.TypeError
  end.

(** [FitConfiguration.__init__(name, model, estimator, custom_parameters)],
    on the values it is called with. *)
Definition __init__ (name model estimator custom_parameters : pyval.value)
  : py.result FitConfiguration :=
  match name with
  | pyval.str n =>
      py.and_then (py.assert (negb (bool_decide (n = ""))) py.name_must_be_non_empty) (λ _,
      py.and_then (in_fit_models model) (λ known,
      py.and_then (py.assert known
                     (py.invalid_fit_model
                        match model with pyval.str m => m | _ => "None" end)) (λ _,
      py.and_then (py.assert (negb (bool_decide (n = "No Fit"))) py.reserved_name) (λ _,
      let self :=
        {| _name := n;
           _model := match model with pyval.str m => m | _ => "" end;
           _estimator := None; _custom_parameters := None |} in
      py.and_then (set_estimator self estimator) (λ self,
      set_custom_parameters self custom_parameters)))))
  | _ => py.Raise (py.AssertionError py.name_must_be_str)
  end.

(** The object invariant: the attributes of [self] pass the checks of the
    constructor and of the two setters, that is, the constructor called
    with them returns [self]. *)
Definition constructed (self : FitConfiguration) : Prop :=
  __init__ (pyval.str (_name self)) (pyval.str (_model self))
           (from_option pyval.str pyval.none (_estimator self))
           (from_option pyval.parameters pyval.none (_custom_parameters self))
  = py.Ok self.

(** [to_dict]. *)
Definition to_dict (self : FitConfiguration) : gmap string pyval.value :=
  <["name" := pyval.str (_name self)]>
  (<["model" := pyval.str (_model self)]>
  (<["estimator" := from_option pyval.str pyval.none (_estimator self)]>
  (<["custom_parameters" :=
       match _custom_parameters self with
       | None => pyval.none
       | Some p => pyval.str (dumps p)
       end]> ∅))).

Definition dict_keys : gset string :=
  {[ "name"; "model"; "estimator"; "custom_parameters" ]}.

(** The call of [cls] with the entries of a dict with the four keys as
    keyword arguments. *)
Definition construct (dict_repr : gmap string pyval.value) : py.result FitConfiguration :=
  __init__ (default pyval.none (dict_repr !! "name"))
           (default pyval.none (dict_repr !! "model"))
           (default pyval.none (dict_repr !! "estimator"))
           (default pyval.none (dict_repr !! "custom_parameters")).

(** [from_dict(dict_repr)].  The dict is the caller's object and the
    method assigns to one of its keys, so the dict as it is after the call
    is returned beside the result. *)
Definition from_dict (dict_repr : gmap string pyval.value)
  : gmap string pyval.value * py.result FitConfiguration :=
  if decide (dom dict_repr = dict_keys) then
    match dict_repr !! "custom_parameters" with
    | Some (pyval.str s) =>
        match loads s with
        | py.Ok p =>
            let dict_repr := <["custom_parameters" := pyval.parameters p]> dict_repr in
            (dict_repr, construct dict_repr)
        | py.Raise e => (dict_repr, py.Raise e)
        end
    | _ => (dict_repr, construct dict_repr)
    end
  else (dict_repr, py.Raise (py.AssertionError py.dict_repr_keys)).

(** *** class FitConfigurationsModel *)

Local Open Scope method_scope.

Definition configuration_names (self : FitConfigurationsModel) : list string :=
  _name <$> _fit_configurations self.

Definition configurations (self : FitConfigurationsModel) : list FitConfiguration :=
  _fit_configurations self.

(** [add_configuration(name, model, estimator=None, custom_parameters=None)]. *)
Definition add_configuration (name model : string) (estimator : option string)
    (custom_parameters : option lmfit.Parameters) : method FitConfigurationsModel unit :=
  self <~ get ;;
  call (py.assert (negb (bool_decide (name ∈ configuration_names self)))
          (py.already_defined name)) ;;;
  call (py.assert (negb (bool_decide (name = "No Fit"))) py.reserved_name) ;;;
  config <~ call (__init__ (pyval.str name) (pyval.str model)
                    (from_option pyval.str pyval.none estimator)
                    (from_option pyval.parameters pyval.none custom_parameters)) ;;
  let new_row := length (_fit_configurations self) in
  emit (beginInsertRows new_row new_row) ;;;
  put {| _fit_configurations := _fit_configurations self ++ [config] |} ;;;
  emit endInsertRows ;;;
  self <~ get ;;
  emit (sigFitConfigurationsChanged (configuration_names self)).

(** [remove_configuration(name)]. *)
Definition remove_configuration (name : string) : method FitConfigurationsModel unit :=
  self <~ get ;;
  match pyval.index name (configuration_names self) with
  | None => ret tt
  | Some row_index =>
      emit (beginRemoveRows row_index row_index) ;;;
      put {| _fit_configurations := pyval.pop row_index (_fit_configurations self) |} ;;;
      emit endRemoveRows ;;;
      self <~ get ;;
      emit (sigFitConfigurationsChanged (configuration_names self))
  end.

(** The message of the [ValueError] of [get_configuration_by_name]. *)
Definition no_fit_configuration_found (name : string) : string :=
  "No fit configuration found with name " +:+ pyval.dquote +:+ name +:+ pyval.dquote +:+ ".".

(** [get_configuration_by_name(name)]. *)
Definition get_configuration_by_name (name : string)
  : method FitConfigurationsModel FitConfiguration :=
  self <~ get ;;
  match pyval.index name (configuration_names self) with
  | None => raise (py.ValueError (no_fit_configuration_found name))
  | Some row_index =>
      match _fit_configurations self !! row_index with
      | Some config => ret config
      | None => raise py.IndexError
      end
  end.

(** [dump_configs()]. *)
Definition dump_configs (self : FitConfigurationsModel) : list (gmap string pyval.value) :=
  to_dict <$> _fit_configurations self.

(** [load_configs(configs)]: a dict that [from_dict] refuses is logged and
    skipped.  The dicts as they are after the call are returned. *)
Definition load_configs (configs : list (gmap string pyval.value))
  : method FitConfigurationsModel (list (gmap string pyval.value)) :=
  let loaded := from_dict <$> configs in
  let config_objects :=
    omap (λ r, match r.2 with py.Ok c => Some c | py.Raise _ => None end) loaded in
  let warnings :=
    omap (λ r, match r.2 with py.Ok _ => None | py.Raise _ => Some log_warning end) loaded in
  (λ s, {| returned := py.Ok tt; state := s; emitted := warnings |}) ;;;
  emit beginResetModel ;;;
  put {| _fit_configurations := config_objects |} ;;;
  emit endResetModel ;;;
  self <~ get ;;
  emit (sigFitConfigurationsChanged (configuration_names self)) ;;;
  ret loaded.*1.

(** *** class FitContainer *)

(** A method of the configuration model, run on the model the container
    refers to. *)
Definition on_configuration_model {A} (m : method FitConfigurationsModel A)
  : method FitContainer A :=
  λ self,
    match m (_configuration_model self) with
    | {| returned := r; state := configuration_model; emitted := t |} =>
        {| returned := r;
           state := {| _configuration_model := configuration_model;
                       _last_fit_result := _last_fit_result self;
                       _last_fit_config := _last_fit_config self |};
           emitted := t |}
    end.

Definition fit_configurations (self : FitContainer) : list FitConfiguration :=
  configurations (_configuration_model self).

Definition fit_configuration_names (self : FitContainer) : list string :=
  configuration_names (_configuration_model self).

Definition set_last_fit_result (r : option lmfit.ModelResult) : method FitContainer unit :=
  self <~ get ;;
  put {| _configuration_model := _configuration_model self;
         _last_fit_result := r;
         _last_fit_config := _last_fit_config self |} ;;;
  emit (write_last_fit_result r).

Definition set_last_fit_config (c : string) : method FitContainer unit :=
  self <~ get ;;
  put {| _configuration_model := _configuration_model self;
         _last_fit_result := _last_fit_result self;
         _last_fit_config := c |} ;;;
  emit (write_last_fit_config c).

(** The [last_fit] property. *)
Definition last_fit : method FitContainer (string * option lmfit.ModelResult) :=
  with_lock (
    emit read_last_fit ;;;
    self <~ get ;;
    ret (_last_fit_config self, _last_fit_result self)).

(** [x[0]] and [x[-1]]. *)
Definition first_item (x : list Qc) : py.result Qc :=
  match head x with Some v => py.Ok v | None => py.Raise py.IndexError end.
Definition last_item (x : list Qc) : py.result Qc :=
  match last x with Some v => py.Ok v | None => py.Raise py.IndexError end.

(** [for name, param in add_parameters.items(): parameters[name] = param]. *)
Definition add_to (parameters add_parameters : lmfit.Parameters) : lmfit.Parameters :=
  map_fold (λ name param parameters, <[name := param]> parameters)
           parameters add_parameters.

(** The initial parameters: the defaults of the model when the
    configuration has no estimator, else what the estimator returns on
    [(data, x)]. *)
Definition initial_parameters (config : FitConfiguration) (model : FitModelBase.t)
    (x data : list Qc) : method FitContainer lmfit.Parameters :=
  match estimator config with
  | None => ret (FitModelBase.make_params model)
  | Some estimator =>
      match FitModelBase.estimators model !! estimator with
      | Some estimate =>
          emit (call_estimator (_model config) estimator data x) ;;;
          call (estimate data x)
      | None => raise (py.KeyError estimator)
      end
  end.

(** The parameters handed to [model.fit]: the initial ones with the
    custom parameters of the configuration, if it has any, assigned over
    them. *)
Definition with_custom_parameters (config : FitConfiguration)
    (parameters : lmfit.Parameters) : lmfit.Parameters :=
  match custom_parameters config with
  | Some add_parameters => add_to parameters add_parameters
  | None => parameters
  end.

(** The branch of [fit_data] for a configuration name other than [''] and
    ['No Fit']. *)
Definition fit_configured (fit_config : string) (x data : list Qc) : method FitContainer unit :=
  config <~ on_configuration_model (get_configuration_by_name fit_config) ;;
  model <~ call (instantiate (_model config)) ;;
  parameters <~ initial_parameters config model x data ;;
  let parameters := with_custom_parameters config parameters in
  emit (call_fit (_model config) data parameters x) ;;;
  result <~ call (FitModelBase.fit model data parameters x) ;;
  x0 <~ call (first_item x) ;;
  xn <~ call (last_item x) ;;
  let high_res_x := linspace x0 xn (length x * 10) in
  emit (call_eval (_model config) (lmfit.best_values result) high_res_x) ;;;
  high_res_y <~ call (FitModelBase.eval model (lmfit.best_values result) high_res_x) ;;
  let result :=
    {| lmfit.params := lmfit.params result;
       lmfit.best_values := lmfit.best_values result;
       lmfit.high_res_best_fit := Some (high_res_x, high_res_y) |} in
  set_last_fit_result (Some result) ;;;
  set_last_fit_config fit_config.

(** [fit_data(fit_config, x, data)]. *)
Definition fit_data (fit_config : string) (x data : list Qc)
  : method FitContainer (string * option lmfit.ModelResult) :=
  with_lock (
    if decide (fit_config = "") then ret ("", None)
    else
      (if decide (fit_config = "No Fit") then
         set_last_fit_result None ;;;
         set_last_fit_config "No Fit"
       else fit_configured fit_config x data) ;;;
      self <~ get ;;
      emit (sigLastFitResultChanged (_last_fit_config self) (_last_fit_result self)) ;;;
      ret (_last_fit_config self, _last_fit_result self)).

(** The entry of [parameters_to_format] for one parameter. *)
Definition entry_of (parameters_units : gmap string string) (name : string)
    (param : lmfit.Param) : format_entry :=
  let stderr := if lmfit.vary param then lmfit.stderr param else None in
  let stderr :=
    if lmfit.vary param && bool_decide (stderr = None) then Some lmfit.nan else stderr in
  {| entry_value := lmfit.value param;
     entry_error := stderr;
     entry_unit := default "" (parameters_units !! name) |}.

Definition parameters_to_format (fit_result : lmfit.ModelResult)
    (parameters_units : gmap string string) : gmap string format_entry :=
  map_imap (λ name param, Some (entry_of parameters_units name param))
           (lmfit.params fit_result).

(** [formatted_result(fit_result, parameters_units=None)]. *)
Definition formatted_result (fit_result : option lmfit.ModelResult)
    (parameters_units : option (gmap string string)) : string :=
  match fit_result with
  | None => ""
  | Some fit_result =>
      let parameters_units := default ∅ parameters_units in
      create_formatted_output (parameters_to_format fit_result parameters_units)
  end.

End datafitting.

(* ===================================================================== *)
(** ** The item-model methods, the invariants and [dict_result] *)
(* ===================================================================== *)

(** [QtCore.Qt.ItemDataRole], as far as the module tells the roles apart. *)
Inductive ItemDataRole : Type := DisplayRole | EditRole | UserRole.

(** [QtCore.Qt.Orientation]. *)
Inductive Orientation : Type := Horizontal | Vertical.

(** [QtCore.Qt.ItemFlag]: the two flags the model hands out. *)
Inductive ItemFlag : Type := ItemIsEditable | ItemIsEnabled.

(** A [QModelIndex] of the list model: [None] is an invalid index, [Some row]
    a valid one (a valid index has a row that is not negative). *)
Abbreviation QModelIndex := (option nat).

(** The [dataChanged(top_left, bottom_right)] signal, by the rows of the two
    indexes. *)
Inductive ItemSignal : Type := dataChanged (top_left bottom_right : nat).

(** [seq[i]] for a Python int: a negative [i] counts from the end; [None]
    where Python raises [IndexError]. *)
Definition getitem {A} (seq : list A) (i : Z) : option A :=
  if decide (0 ≤ i)%Z then seq !! Z.to_nat i
  else if decide (- Z.of_nat (length seq) ≤ i)%Z
       then seq !! Z.to_nat (Z.of_nat (length seq) + i)
       else None.

(** The tuple [(vary, value, min, max)] that [setData] reads per parameter. *)
Record value_tuple : Type := {
  tuple_vary : bool;
  tuple_value : lmfit.float;
  tuple_min : lmfit.float;
  tuple_max : lmfit.float
}.

(** What [dict_result] reads of a fit result: [fit_result.model.name] and
    [fit_result.result.params]. *)
Record exported_result : Type := {
  model_name : string;
  result_params : lmfit.Parameters
}.

Section item_model.

Variable _fit_models : gmap string FitModelBase.t.

(** [lmfit.Parameter.set(vary=, value=, min=, max=)]; lmfit can refuse the
    bounds, so the call can raise. *)
Variable Parameter_set : lmfit.Param → value_tuple → py.result lmfit.Param.

(** [getattr(param, key)] on an [lmfit.Parameter], with the type of the
    attribute values; it raises for a name that is no attribute. *)
Variable attribute : Type.
Variable getattr : lmfit.Param → string → py.result attribute.

(** *** The invariant of a configuration *)

(** The checks of the constructor and of the two setters, as conditions on
    the attributes. *)
Definition valid (self : FitConfiguration) : Prop :=
  _name self ≠ "" ∧
  _name self ≠ "No Fit" ∧
  ∃ m, _fit_models !! _model self = Some m ∧
       (∀ e, _estimator self = Some e → is_Some (FitModelBase.estimators m !! e)) ∧
       (∀ p, _custom_parameters self = Some p → dom p ⊆ dom (FitModelBase.make_params m)).

(** The invariant of the list model: unique names, valid configurations. *)
Definition model_invariant (self : FitConfigurationsModel) : Prop :=
  NoDup (configuration_names self) ∧ Forall valid (_fit_configurations self).

(** *** class FitConfigurationsModel, the views *)

(** [model_names]: [tuple(_fit_models)]. *)
Definition model_names : list string := (map_to_list _fit_models).*1.

(** [model_estimators]. *)
Definition model_estimators : gmap string (list string) :=
  (λ m, (map_to_list (FitModelBase.estimators m)).*1) <$> _fit_models.

(** [model_default_parameters]. *)
Definition model_default_parameters : gmap string lmfit.Parameters :=
  FitModelBase.make_params <$> _fit_models.

(** [flags(index)]: the method returns nothing for an invalid index. *)
Definition flags (index : QModelIndex) : option (list ItemFlag) :=
  match index with
  | Some _ => Some [ItemIsEditable; ItemIsEnabled]
  | None => None
  end.

(** [rowCount()]. *)
Definition rowCount (self : FitConfigurationsModel) : nat :=
  length (_fit_configurations self).

(** [headerData(section, orientation, role)]. *)
Definition headerData (section : Z) (orientation : Orientation) (role : ItemDataRole)
    (self : FitConfigurationsModel) : option string :=
  match role with
  | DisplayRole =>
      match orientation with
      | Horizontal =>
          if decide (section = 0%Z) then Some "Fit Configurations" else None
      | Vertical => getitem (configuration_names self) section
      end
  | _ => None
  end.

(** [data(index, role)]. *)
Definition data (index : QModelIndex) (role : ItemDataRole)
    (self : FitConfigurationsModel) : option FitConfiguration :=
  match role, index with
  | DisplayRole, Some row => _fit_configurations self !! row
  | _, _ => None
  end.

(** [for name, p in params.items(): p.set(...)], in the order of the items. *)
Fixpoint set_each (new_params : gmap string value_tuple)
    (items : list (string * lmfit.Param)) : py.result (list (string * lmfit.Param)) :=
  match items with
  | [] => py.Ok []
  | (name, p) :: items =>
      py.and_then
        match new_params !! name with
        | Some value_tuple => Parameter_set p value_tuple
        | None => py.Raise (py.KeyError name)
        end (λ p,
      py.and_then (set_each new_params items) (λ items,
      py.Ok ((name, p) :: items)))
  end.

(** The parameter table that [setData] builds: the defaults of the model
    without the names that [new_params] lacks, each set from its tuple. *)
Definition edited_parameters (config : FitConfiguration)
    (new_params : gmap string value_tuple) : py.result lmfit.Parameters :=
  py.and_then (default_parameters _fit_models config) (λ params,
  let params := filter (λ item, is_Some (new_params !! item.1)) params in
  py.and_then (set_each new_params (map_to_list params)) (λ items,
  py.Ok (list_to_map items))).

(** [None if not value[0] else value[0]]. *)
Definition estimator_or_None (estimator : option string) : pyval.value :=
  match estimator with
  | Some e => if decide (e = "") then pyval.none else pyval.str e
  | None => pyval.none
  end.

(** [None if not params else params]. *)
Definition parameters_or_None (params : lmfit.Parameters) : pyval.value :=
  if decide (size params = 0) then pyval.none else pyval.parameters params.

(** [setData(index, value, role)] with [value = (estimator, new_params)]:
    the result, the model after the call and the [dataChanged] signals.  The
    configuration is an object of the list and the setters assign to it, so
    an assignment made before an exception stays. *)
Definition setData (index : QModelIndex) (value : option string * gmap string value_tuple)
    (role : ItemDataRole) (self : FitConfigurationsModel)
  : py.result bool * FitConfigurationsModel * list ItemSignal :=
  match index with
  | Some row =>
      match data index DisplayRole self with
      | None => (py.Ok false, self, [])
      | Some config =>
          match edited_parameters config value.2 with
          | py.Raise e => (py.Raise e, self, [])
          | py.Ok params =>
              match set_estimator _fit_models config (estimator_or_None value.1) with
              | py.Raise e => (py.Raise e, self, [])
              | py.Ok config =>
                  match set_custom_parameters _fit_models config
                          (parameters_or_None params) with
                  | py.Raise e =>
                      (py.Raise e,
                       {| _fit_configurations := <[row := config]> (_fit_configurations self) |},
                       [])
                  | py.Ok config =>
                      (py.Ok true,
                       {| _fit_configurations := <[row := config]> (_fit_configurations self) |},
                       [dataChanged row row])
                  end
              end
          end
      end
  | None => (py.Ok false, self, [])
  end.

(** *** class FitContainer, [dict_result] *)

(** A value in the dict of one parameter: an attribute of the parameter or
    the unit. *)
Inductive exported_value : Type :=
| exported_attribute (v : attribute)
| exported_unit (unit : string).

(** An entry of the exported dict: the model name under ['model'], or the
    dict of one parameter. *)
Inductive exported_entry : Type :=
| exported_model (name : string)
| exported_parameter (dict_i : gmap string exported_value).

(** [{key: getattr(res, key) for key in export_keys}]. *)
Fixpoint attributes_of (res : lmfit.Param) (export_keys : list string)
  : py.result (gmap string exported_value) :=
  match export_keys with
  | [] => py.Ok ∅
  | key :: export_keys =>
      py.and_then (getattr res key) (λ v,
      py.and_then (attributes_of res export_keys) (λ dict_i,
      py.Ok (match dict_i !! key with
             | Some _ => dict_i
             | None => <[key := exported_attribute v]> dict_i
             end)))
  end.

(** The loop of [dict_result] over the items of [fitparams]. *)
Fixpoint export_each (parameters_units : gmap string string) (export_keys : list string)
    (items : list (string * lmfit.Param)) (export_dict : gmap string exported_entry)
  : py.result (gmap string exported_entry) :=
  match items with
  | [] => py.Ok export_dict
  | (key, res) :: items =>
      py.and_then (attributes_of res export_keys) (λ dict_i,
      let dict_i := <["unit" := exported_unit (default "" (parameters_units !! key))]> dict_i in
      export_each parameters_units export_keys items
        (<[key := exported_parameter dict_i]> export_dict))
  end.

(** [dict_result(fit_result, parameters_units=None, export_keys=...)]. *)
Definition dict_result (fit_result : option exported_result)
    (parameters_units : option (gmap string string)) (export_keys : list string)
  : py.result (gmap string exported_entry) :=
  match fit_result with
  | None => py.Ok ∅
  | Some fit_result =>
      let parameters_units := default ∅ parameters_units in
      let fitparams := result_params fit_result in
      let export_dict := {[ "model" := exported_model (model_name fit_result) ]} in
      export_each parameters_units export_keys (map_to_list fitparams) export_dict
  end.

End item_model.

(** The event is a call into the fit model (an estimator, [fit] or
    [eval]). *)
Definition is_model_call (e : Event) : bool :=
  match e with
  | call_estimator _ _ _ _ | call_fit _ _ _ _ | call_eval _ _ _ => true
  | _ => false
  end.

(* ===================================================================== *)
(** ** Threads that share one container *)
(* ===================================================================== *)

(** The lock state after a thread has performed the events [tr], starting
    from [held]: is [_access_lock] held by that thread? *)
Definition holds_lock (held : bool) (tr : list Event) : bool :=
  foldl (λ held e,
           match e with
           | lock_acquire => true
           | lock_release => false
           | _ => held
           end) held tr.

(** The last-fit pair after the assignments recorded in [tr]. *)
Definition replay (pair : string * option lmfit.ModelResult) (tr : list Event)
  : string * option lmfit.ModelResult :=
  foldl (λ pair e,
           match e with
           | write_last_fit_result r => (pair.1, r)
           | write_last_fit_config c => (c, pair.2)
           | _ => pair
           end) pair tr.

(** Several threads run method calls on one container.  Each thread has
    the events of its call still to perform; [owner] is the thread that
    holds [_access_lock]; [shared] is the pair of attributes
    ([_last_fit_config], [_last_fit_result]); [observed] lists what the
    reads of [last_fit] have seen, latest first. *)
Record machine : Type := {
  owner : option nat;
  shared : string * option lmfit.ModelResult;
  threads : list (list Event);
  observed : list (nat * (string * option lmfit.ModelResult))
}.

(** Thread [tid] performs its next event.  [None]: the thread cannot move,
    because it has finished or because it waits for the mutex. *)
Definition step (m : machine) (tid : nat) : option machine :=
  match threads m !! tid with
  | Some (e :: rest) =>
      let threads' := <[tid := rest]> (threads m) in
      match e with
      | lock_acquire =>
          match owner m with
          | None => Some {| owner := Some tid; shared := shared m; threads := threads';
                            observed := observed m |}
          | Some _ => None
          end
      | lock_release =>
          Some {| owner := None; shared := shared m; threads := threads';
                  observed := observed m |}
      | write_last_fit_result r =>
          Some {| owner := owner m; shared := ((shared m).1, r); threads := threads';
                  observed := observed m |}
      | write_last_fit_config c =>
          Some {| owner := owner m; shared := (c, (shared m).2); threads := threads';
                  observed := observed m |}
      | read_last_fit =>
          Some {| owner := owner m; shared := shared m; threads := threads';
                  observed := (tid, shared m) :: observed m |}
      | _ =>
          Some {| owner := owner m; shared := shared m; threads := threads';
                  observed := observed m |}
      end
  | _ => None
  end.

(** The threads move in the order of [schedule]. *)
Fixpoint exec (m : machine) (schedule : list nat) : option machine :=
  match schedule with
  | [] => Some m
  | tid :: schedule =>
      match step m tid with
      | Some m' => exec m' schedule
      | None => None
      end
  end.

(** Thread [tid] has an event to perform and cannot perform it. *)
Definition blocked (m : machine) (tid : nat) : Prop :=
  (∃ e rest, threads m !! tid = Some (e :: rest)) ∧ step m tid = None.

(** A fit by thread 0 and a read of [last_fit] by thread 1 on the
    container [self]. *)
Definition fit_and_read (fit_trace read_trace : list Event) (self : FitContainer) : machine :=
  {| owner := None;
     shared := (_last_fit_config self, _last_fit_result self);
     threads := [fit_trace; read_trace];
     observed := [] |}.

(** The event is the call of the solver. *)
Definition is_call_fit (e : Event) : bool :=
  match e with call_fit _ _ _ _ => true | _ => false end.

(** The event is one that happens inside a [with self._access_lock] block
    of [fit_data]: no mutex operation and no read of [last_fit]. *)
Definition is_body_event (e : Event) : bool :=
  match e with lock_acquire | lock_release | read_last_fit => false | _ => true end.

(** The event is an assignment to an attribute of the last-fit pair. *)
Definition is_write (e : Event) : bool :=
  match e with write_last_fit_result _ | write_last_fit_config _ => true | _ => false end.

Definition last_fit_pair (self : FitContainer) : string * option lmfit.ModelResult :=
  (_last_fit_config self, _last_fit_result self).

(** A method of the container whose events are all body events and record
    every assignment to the last-fit pair. *)
Definition traced {A} (m : method FitContainer A) : Prop :=
  ∀ s, Forall (λ e, is_body_event e = true) (emitted (m s)) ∧
       replay (last_fit_pair s) (emitted (m s)) = last_fit_pair (state (m s)).

(* ===================================================================== *)
(** ** A registry with one model, to run the definitions on *)
(* ===================================================================== *)

Module demo.

(** A stand-in for [np.linspace] in exact arithmetic:
    [arange(0, num) * step + start] with
    [step = (stop - start) / (num - 1)], and the last sample then set to
    [stop] when [num > 1].  numpy does this arithmetic in binary64, so its
    samples can differ from these by rounding. *)
Definition step (start stop : Qc) (num : nat) : Qc :=
  ((stop - start) / np.of_nat (num - 1))%Qc.

Definition sample (start stop : Qc) (num : nat) (i : nat) : Qc :=
  (np.of_nat i * step start stop num + start)%Qc.

Definition linspace (start stop : Qc) (num : nat) : list Qc :=
  let y := sample start stop num <$> seq 0 num in
  if decide (1 < num) then <[num - 1 := stop]> y else y.

Definition param (v : Qc) (varies : bool) : lmfit.Param :=
  {| lmfit.value := lmfit.finite v; lmfit.vary := varies;
     lmfit.min := lmfit.inf true; lmfit.max := lmfit.inf false;
     lmfit.stderr := None |}.

Definition linear_params (offset slope : Qc) : lmfit.Parameters :=
  <["offset" := param offset true]> (<["slope" := param slope true]> ∅).

Definition sum (l : list Qc) : Qc := foldr Qcplus 0%Qc l.

(** Offset and slope of the least-squares line through the points. *)
Definition least_squares (x data : list Qc) : option (Qc * Qc) :=
  let n := np.of_nat (length x) in
  let sx := sum x in
  let sy := sum data in
  let sxx := sum (zip_with Qcmult x x) in
  let sxy := sum (zip_with Qcmult x data) in
  let d := (n * sxx - sx * sx)%Qc in
  if decide (length x = length data) then
    if decide (d = 0%Qc) then None
    else
      let slope := ((n * sxy - sx * sy) / d)%Qc in
      Some (((sy - slope * sx) / n)%Qc, slope)
  else None.

Definition set_value (v : Qc) (p : lmfit.Param) : lmfit.Param :=
  {| lmfit.value := lmfit.finite v; lmfit.vary := lmfit.vary p;
     lmfit.min := lmfit.min p; lmfit.max := lmfit.max p;
     lmfit.stderr := lmfit.stderr p |}.

(** A straight line [offset + slope * x].  Its fit does not interpret
    bounds or the vary flag. *)
Definition Linear : FitModelBase.t :=
  {| FitModelBase.estimators :=
       {[ "default" := λ data x : list Qc,
            py.Ok (linear_params (default 0%Qc (head data)) 0%Qc) ]};
     FitModelBase.make_params := linear_params 0%Qc 1%Qc;
     FitModelBase.fit := λ data parameters x,
       match least_squares x data with
       | Some (offset, slope) =>
           py.Ok {| lmfit.params :=
                      alter (set_value offset) "offset"
                        (alter (set_value slope) "slope" parameters);
                    lmfit.best_values := <["offset" := offset]> (<["slope" := slope]> ∅);
                    lmfit.high_res_best_fit := None |}
       | None => py.Raise (py.Foreign ["ValueError"; "Exception"; "BaseException"; "object"])
       end;
     FitModelBase.eval := λ best_values x,
       py.Ok ((λ xi, default 0 (best_values !! "offset")
                     + default 0 (best_values !! "slope") * xi)%Qc <$> x) |}.

Definition _fit_models : gmap string FitModelBase.t := {[ "Linear" := Linear ]}.

(** A reduced serialisation that keeps the names and the vary flags: each
    entry is the name followed by [+] (varies) or [-] (fixed). *)
Definition dumps (p : lmfit.Parameters) : string :=
  foldr (λ e s, e.1 +:+ (if lmfit.vary e.2 then "+" else "-") +:+ s) "" (map_to_list p).

Fixpoint parse (s name : string) (acc : lmfit.Parameters) : py.result lmfit.Parameters :=
  match s with
  | EmptyString =>
      if decide (name = "") then py.Ok acc
      else py.Raise (py.Foreign ["JSONDecodeError"; "ValueError"; "Exception";
                                 "BaseException"; "object"])
  | String c rest =>
      if decide (c = "+"%char) then parse rest "" (<[name := param 0%Qc true]> acc)
      else if decide (c = "-"%char) then parse rest "" (<[name := param 0%Qc false]> acc)
      else parse rest (name +:+ String c EmptyString) acc
  end.

Definition loads (s : string) : py.result lmfit.Parameters := parse s "" ∅.

Definition fixed_slope : lmfit.Parameters := {[ "slope" := param 0%Qc false ]}.

Definition L1 : FitConfiguration :=
  {| _name := "L1"; _model := "Linear"; _estimator := None; _custom_parameters := None |}.

Definition L2 : FitConfiguration :=
  {| _name := "L2"; _model := "Linear"; _estimator := Some "default";
     _custom_parameters := Some fixed_slope |}.

Definition config_model : FitConfigurationsModel := {| _fit_configurations := [L1; L2] |}.

(** A container as [FitContainer.__init__] leaves it. *)
Definition container : FitContainer :=
  {| _configuration_model := config_model;
     _last_fit_result := None;
     _last_fit_config := "No Fit" |}.

Definition x : list Qc := np.of_nat <$> [0; 1; 2; 3].
Definition data : list Qc := np.of_nat <$> [0; 2; 4; 6].

(** [Parameter.set(vary=, value=, min=, max=)] where lmfit accepts the
    bounds: the four attributes are assigned. *)
Definition Parameter_set (p : lmfit.Param) (t : value_tuple) : py.result lmfit.Param :=
  py.Ok {| lmfit.value := tuple_value t; lmfit.vary := tuple_vary t;
           lmfit.min := tuple_min t; lmfit.max := tuple_max t;
           lmfit.stderr := lmfit.stderr p |}.

(** The values of the attributes of a parameter that [getattr] reads here. *)
Inductive attribute : Type :=
| float_attribute (v : option lmfit.float)
| bool_attribute (b : bool).

Definition getattr (p : lmfit.Param) (key : string) : py.result attribute :=
  if decide (key = "value") then py.Ok (float_attribute (Some (lmfit.value p)))
  else if decide (key = "stderr") then py.Ok (float_attribute (lmfit.stderr p))
  else if decide (key = "min") then py.Ok (float_attribute (Some (lmfit.min p)))
  else if decide (key = "max") then py.Ok (float_attribute (Some (lmfit.max p)))
  else if decide (key = "vary") then py.Ok (bool_attribute (lmfit.vary p))
  else py.Raise (py.Foreign ["AttributeError"; "Exception"; "BaseException"; "object"]).

(** The part of a result of [Linear] that [dict_result] reads. *)
Definition exported : exported_result :=
  {| model_name := "Linear"; result_params := linear_params 0%Qc 1%Qc |}.

(** What [setData] gets for the slope: fixed, at [0], without bounds. *)
Definition slope_tuple : value_tuple :=
  {| tuple_vary := false; tuple_value := lmfit.finite 0%Qc;
     tuple_min := lmfit.inf true; tuple_max := lmfit.inf false |}.

(** A constant [offset].  Its fit returns the parameters it is given, also
    for no points at all. *)
Definition Constant : FitModelBase.t :=
  {| FitModelBase.estimators := ∅;
     FitModelBase.make_params := {[ "offset" := param 0%Qc true ]};
     FitModelBase.fit := λ data parameters x,
       py.Ok {| lmfit.params := parameters;
                lmfit.best_values := {[ "offset" := 0%Qc ]};
                lmfit.high_res_best_fit := None |};
     FitModelBase.eval := λ best_values x,
       py.Ok ((λ _, default 0%Qc (best_values !! "offset")) <$> x) |}.

Definition more_fit_models : gmap string FitModelBase.t :=
  <["Constant" := Constant]> _fit_models.

Definition C1 : FitConfiguration :=
  {| _name := "C1"; _model := "Constant"; _estimator := None;
     _custom_parameters := None |}.

Definition constant_container : FitContainer :=
  {| _configuration_model := {| _fit_configurations := [C1] |};
     _last_fit_result := None;
     _last_fit_config := "No Fit" |}.

End demo.

(* ===================================================================== *)
(** * Properties *)
(* ===================================================================== *)

(** ** Sequences *)

Lemma index_None (v : string) (seq : list string) :
  pyval.index v seq = None ↔ v ∉ seq.
Proof.
  induction seq as [|s seq IH]; simpl.
  - split; [intros _; apply not_elem_of_nil | done].
  - rewrite not_elem_of_cons. case_decide as Hs.
    + split; [done | intros [Hne _]; by subst].
    + rewrite fmap_None, IH. split; [by intros Hn; split | by intros [_ Hn]].
Qed.

Lemma index_Some (v : string) (seq : list string) (i : nat) :
  pyval.index v seq = Some i →
  seq !! i = Some v ∧ v ∉ take i seq.
Proof.
  revert i. induction seq as [|s seq IH]; intros i; simpl; [done|].
  case_decide as Hs.
  - intros [= <-]. subst. split; [done | apply not_elem_of_nil].
  - destruct (pyval.index v seq) as [j|] eqn:Hj; simpl; [|done].
    intros [= <-]. destruct (IH j eq_refl) as [Hl Hn]. split; [done|].
    simpl. rewrite not_elem_of_cons. split; [congruence | done].
Qed.

Lemma index_is_Some (v : string) (seq : list string) :
  v ∈ seq → is_Some (pyval.index v seq).
Proof.
  intros Hin. destruct (pyval.index v seq) eqn:Hi; [by eexists|].
  by apply index_None in Hi.
Qed.

Lemma index_app_fresh (v : string) (seq : list string) :
  v ∉ seq → pyval.index v (seq ++ [v]) = Some (length seq).
Proof.
  induction seq as [|s seq IH]; simpl; intros Hv.
  - by rewrite decide_True.
  - apply not_elem_of_cons in Hv as [Hne Hv].
    rewrite decide_False by congruence. by rewrite IH.
Qed.

Lemma pop_lookup {A} (i : nat) (seq : list A) (a : A) :
  seq !! i = Some a →
  seq = take i seq ++ a :: drop (S i) seq ∧ length (take i seq) = i.
Proof.
  intros Hi. split.
  - by rewrite <-(take_drop_middle seq i a) at 1.
  - apply length_take_le. apply lookup_lt_Some in Hi. lia.
Qed.

(** ** The stand-in for [np.linspace] *)



(** ** Overlaying the custom parameters *)

Lemma add_to_lookup (parameters add_parameters : lmfit.Parameters) (name : string) :
  add_to parameters add_parameters !! name
  = match add_parameters !! name with
    | Some param => Some param
    | None => parameters !! name
    end.
Proof.
  unfold add_to. revert name.
  apply (map_fold_weak_ind
           (λ r (m : lmfit.Parameters), ∀ name,
              r !! name = match m !! name with
                          | Some param => Some param
                          | None => parameters !! name
                          end)).
  - intros name. by rewrite lookup_empty.
  - intros i param m r Hi IH name. destruct (decide (i = name)) as [->|Hne].
    + by rewrite !lookup_insert_eq.
    + rewrite !lookup_insert_ne by done. apply IH.
Qed.

(** ** Threads *)

Lemma holds_lock_body (held : bool) (body : list Event) :
  Forall (λ e, is_body_event e = true) body → holds_lock held body = held.
Proof.
  intros Hb. revert held. induction Hb as [|e body He _ IH]; intros held; [done|].
  simpl. rewrite IH. by destruct e.
Qed.

Lemma exec_app (m : machine) (s1 s2 : list nat) :
  exec m (s1 ++ s2) = exec m s1 ≫= λ m', exec m' s2.
Proof.
  revert m. induction s1 as [|tid s1 IH]; intros m; simpl; [done|].
  destruct (step m tid); [apply IH | done].
Qed.

(** A thread performs body events without regard to the other threads. *)
Lemma exec_body (tid : nat) (body rest : list Event) (m : machine) :
  threads m !! tid = Some (body ++ rest) →
  Forall (λ e, is_body_event e = true) body →
  exec m (replicate (length body) tid)
  = Some {| owner := owner m;
            shared := replay (shared m) body;
            threads := <[tid := rest]> (threads m);
            observed := observed m |}.
Proof.
  intros Hth Hb. revert m Hth.
  induction Hb as [|e body He _ IH]; intros m Hth; simpl in *.
  - rewrite list_insert_id by done. by destruct m.
  - pose proof (lookup_lt_Some _ _ _ Hth) as Hlt.
    assert (Hstep : step m tid
              = Some {| owner := owner m; shared := replay (shared m) [e];
                        threads := <[tid := body ++ rest]> (threads m);
                        observed := observed m |}).
    { unfold step. rewrite Hth. destruct e; try done; by destruct (shared m). }
    rewrite Hstep. rewrite IH by (simpl; by rewrite list_lookup_insert_eq).
    simpl. by rewrite list_insert_insert_eq.
Qed.

Section properties.

Context (_fit_models : gmap string FitModelBase.t).
Context (linspace : Qc → Qc → nat → list Qc).
Context (dumps : lmfit.Parameters → string).
Context (loads : string → py.result lmfit.Parameters).
Context (create_formatted_output : gmap string format_entry → string).

(** ** The list model *)

(** C7 (as amended): [remove_configuration(name)] for a name that no
    configuration has returns without an exception, leaves the list as it
    is and emits nothing.  For a name that is present it removes one
    configuration, the first of that name, keeps all others in order, and
    emits, after the row notifications, [sigFitConfigurationsChanged] with
    the names that are left.  The removed name is among them exactly when a
    later configuration has it too; with unique names it is not. *)
Theorem remove_configuration_spec (self : FitConfigurationsModel) (name : string) :
  let o := remove_configuration name self in
  ((name ∉ configuration_names self) →
     returned o = py.Ok tt ∧ state o = self ∧ emitted o = []) ∧
  (name ∈ configuration_names self →
     ∃ before config after,
       _fit_configurations self = before ++ config :: after ∧
       _name config = name ∧
       (name ∉ _name <$> before) ∧
       returned o = py.Ok tt ∧
       _fit_configurations (state o) = before ++ after ∧
       emitted o = [beginRemoveRows (length before) (length before);
                    endRemoveRows;
                    sigFitConfigurationsChanged (configuration_names (state o))] ∧
       (name ∈ configuration_names (state o) ↔ name ∈ _name <$> after) ∧
       (NoDup (configuration_names self) → name ∉ configuration_names (state o))).
Proof.
  unfold remove_configuration, bind, get. simpl. split.
  - intros Habs. apply index_None in Habs. rewrite Habs. simpl.
    by destruct self.
  - intros Hin. destruct (index_is_Some _ _ Hin) as [i Hi]. rewrite Hi. simpl.
    destruct (index_Some _ _ _ Hi) as [Hl Hbefore].
    unfold configuration_names in Hl, Hbefore.
    rewrite list_lookup_fmap in Hl.
    destruct (_fit_configurations self !! i) as [config|] eqn:Hc; [|done].
    injection Hl as Hname.
    destruct (pop_lookup _ _ _ Hc) as [Hsplit Hlen].
    exists (take i (_fit_configurations self)), config,
           (drop (S i) (_fit_configurations self)).
    rewrite Hlen. rewrite <-fmap_take in Hbefore.
    repeat (split; [done|]). split.
    + unfold configuration_names. simpl. unfold pyval.pop.
      rewrite fmap_app, elem_of_app. split; [intros [H|H]; done | by right].
    + intros Hnodup. unfold configuration_names in *. simpl. unfold pyval.pop.
      rewrite Hsplit in Hnodup. rewrite fmap_app, fmap_cons, Hname in Hnodup.
      apply NoDup_app in Hnodup as (_ & Hdisj & Hnd).
      apply NoDup_cons in Hnd as [Hafter _].
      rewrite fmap_app, elem_of_app. intros [H|H]; done.
Qed.

(** C8 (as amended): [add_configuration('No Fit', ...)] fails with
    [AssertionError] in every state of the model (the assertion on the
    reserved name, or the one on a name already defined should a
    configuration of that name be held), and [add_configuration(name, ...)]
    for a name already present fails with the [AssertionError] 'already
    defined'.  The list is unchanged and nothing is emitted. *)
Theorem add_configuration_refused (self : FitConfigurationsModel) (name model : string)
    (estimator : option string) (custom_parameters : option lmfit.Parameters) :
  let o := add_configuration _fit_models name model estimator custom_parameters self in
  (name = "No Fit" →
     returned o = py.Raise (py.AssertionError
                    (if bool_decide ("No Fit" ∈ configuration_names self)
                     then py.already_defined "No Fit" else py.reserved_name)) ∧
     py.fails_with (returned o) "AssertionError" ∧
     state o = self ∧ emitted o = []) ∧
  (name ∈ configuration_names self →
     returned o = py.Raise (py.AssertionError (py.already_defined name)) ∧
     py.fails_with (returned o) "AssertionError" ∧
     state o = self ∧ emitted o = []).
Proof.
  unfold add_configuration, bind, get, call. simpl. split.
  - intros ->. destruct (bool_decide ("No Fit" ∈ configuration_names self)); done.
  - intros Hin. rewrite (bool_decide_eq_true_2 _ Hin). done.
Qed.

(** ** The dict representation *)

Lemma dom_to_dict (self : FitConfiguration) : dom (to_dict dumps self) = dict_keys.
Proof.
  unfold to_dict, dict_keys. rewrite !dom_insert_L, dom_empty_L. set_solver.
Qed.

Lemma construct_to_dict (self : FitConfiguration) (d : gmap string pyval.value) :
  constructed _fit_models self →
  d !! "name" = Some (pyval.str (_name self)) →
  d !! "model" = Some (pyval.str (_model self)) →
  d !! "estimator" = Some (from_option pyval.str pyval.none (_estimator self)) →
  d !! "custom_parameters"
    = Some (from_option pyval.parameters pyval.none (_custom_parameters self)) →
  construct _fit_models d = py.Ok self.
Proof.
  intros Hc Hn Hm He Hp. unfold construct. rewrite Hn, Hm, He, Hp. exact Hc.
Qed.

(** C5: for a configuration that satisfies the constructor's checks and
    whose parameter table, if it has one, is read back by [loads] from
    what [dumps] writes, [from_dict(to_dict(c))] succeeds and returns a
    configuration with the name, model, estimator and custom parameters
    of [c] ([None] comes back as [None]). *)
Theorem from_dict_to_dict (self : FitConfiguration) :
  constructed _fit_models self →
  (∀ p, _custom_parameters self = Some p → loads (dumps p) = py.Ok p) →
  ∃ config,
    (from_dict _fit_models loads (to_dict dumps self)).2 = py.Ok config ∧
    name config = name self ∧
    model config = model self ∧
    estimator config = estimator self ∧
    custom_parameters config = custom_parameters self.
Proof.
  intros Hc Hround. exists self. split; [|done].
  unfold from_dict. rewrite decide_True by apply dom_to_dict.
  destruct (_custom_parameters self) as [p|] eqn:Hp.
  - replace (to_dict dumps self !! "custom_parameters")
      with (Some (pyval.str (dumps p)))
      by (unfold to_dict; rewrite Hp; by simplify_map_eq).
    rewrite (Hround p eq_refl). simpl.
    apply construct_to_dict; [done|..]; unfold to_dict; rewrite ?Hp;
      by simplify_map_eq.
  - replace (to_dict dumps self !! "custom_parameters") with (Some pyval.none)
      by (unfold to_dict; rewrite Hp; by simplify_map_eq).
    simpl. apply construct_to_dict; [done|..]; unfold to_dict; rewrite ?Hp;
      by simplify_map_eq.
Qed.

(** C10 (as amended): for a dict with exactly the four keys whose
    ['custom_parameters'] entry is a string that [loads] parses,
    [from_dict] assigns the parsed [Parameters] object to that key of the
    caller's dict and leaves the other keys alone, and the constructor is
    then called on the dict so changed; the assignment stays whether or not
    the constructor raises.  A dict with another key set fails the
    assertion on the keys, and a string that [loads] does not parse makes
    [from_dict] raise what [loads] raises; in both cases the dict is as it
    was. *)
Theorem from_dict_assigns_custom_parameters (dict_repr : gmap string pyval.value) :
  let r := from_dict _fit_models loads dict_repr in
  (∀ s p,
     dom dict_repr = dict_keys →
     dict_repr !! "custom_parameters" = Some (pyval.str s) →
     loads s = py.Ok p →
     r.1 = <["custom_parameters" := pyval.parameters p]> dict_repr ∧
     r.1 !! "custom_parameters" = Some (pyval.parameters p) ∧
     r.1 ≠ dict_repr ∧
     (∀ key, key ≠ "custom_parameters" → r.1 !! key = dict_repr !! key) ∧
     r.2 = construct _fit_models r.1) ∧
  (dom dict_repr ≠ dict_keys →
     r = (dict_repr, py.Raise (py.AssertionError py.dict_repr_keys))) ∧
  (∀ s e,
     dom dict_repr = dict_keys →
     dict_repr !! "custom_parameters" = Some (pyval.str s) →
     loads s = py.Raise e →
     r = (dict_repr, py.Raise e)).
Proof.
  intros r. subst r. unfold from_dict. split; [|split].
  - intros s p Hdom Hstr Hloads.
    rewrite decide_True by done. rewrite Hstr, Hloads. simpl.
    split; [done|]. split; [by rewrite lookup_insert_eq|].
    split; [|split; [|done]].
    + intros Heq. apply (f_equal (.!! "custom_parameters")) in Heq.
      rewrite lookup_insert_eq, Hstr in Heq. discriminate.
    + intros key Hkey. by rewrite lookup_insert_ne.
  - intros Hdom. by rewrite decide_False.
  - intros s e Hdom Hstr Hloads.
    rewrite decide_True by done. by rewrite Hstr, Hloads.
Qed.

(** ** The container *)

(** C3: in every state of the container and for all [x] and [data],
    [fit_data('No Fit', x, data)] sets the last-fit pair to
    [('No Fit', None)], emits [sigLastFitResultChanged('No Fit', None)] and
    returns that pair; [last_fit] then returns it too. *)
Theorem fit_data_no_fit (self : FitContainer) (x data : list Qc) :
  let o := fit_data _fit_models linspace "No Fit" x data self in
  returned o = py.Ok ("No Fit", None) ∧
  _last_fit_config (state o) = "No Fit" ∧
  _last_fit_result (state o) = None ∧
  _configuration_model (state o) = _configuration_model self ∧
  emitted o = [lock_acquire; write_last_fit_result None; write_last_fit_config "No Fit";
               sigLastFitResultChanged "No Fit" None; lock_release] ∧
  returned (last_fit (state o)) = py.Ok ("No Fit", None).
Proof. repeat split. Qed.

(** C1 (as amended): for a name that is not empty, not ['No Fit'] and not
    the name of a held configuration, [fit_data(name, x, data)] fails with
    the [ValueError] that [get_configuration_by_name(name)] raises (a
    [ValueError] is no [LookupError]); the container, and with it the
    last-fit pair, is unchanged, and nothing but the mutex operations
    happens. *)
Theorem fit_data_unknown_name (self : FitContainer) (name : string) (x data : list Qc) :
  name ≠ "" →
  name ≠ "No Fit" →
  name ∉ fit_configuration_names self →
  let o := fit_data _fit_models linspace name x data self in
  let g := get_configuration_by_name name (_configuration_model self) in
  returned o = py.Raise (py.ValueError (no_fit_configuration_found name)) ∧
  py.fails_with (returned o) "ValueError" ∧
  ¬ py.fails_with (returned o) "LookupError" ∧
  state o = self ∧
  emitted o = [lock_acquire; lock_release] ∧
  returned (last_fit (state o)) = returned (last_fit self) ∧
  returned g = py.Raise (py.ValueError (no_fit_configuration_found name)) ∧
  py.fails_with (returned g) "ValueError" ∧
  state g = _configuration_model self ∧
  emitted g = [].
Proof.
  intros Hempty Hnofit Habs. apply index_None in Habs.
  unfold fit_configuration_names in Habs.
  unfold fit_data, with_lock, fit_configured, on_configuration_model,
    get_configuration_by_name, bind, get. simpl.
  rewrite !decide_False by done. simpl. rewrite Habs. simpl.
  destruct self. repeat split; done.
Qed.

Lemma get_configuration_by_name_Ok (self : FitConfigurationsModel) (name : string)
    (config : FitConfiguration) :
  returned (get_configuration_by_name name self) = py.Ok config →
  get_configuration_by_name name self
    = {| returned := py.Ok config; state := self; emitted := [] |} ∧
  _name config = name ∧ config ∈ _fit_configurations self.
Proof.
  unfold get_configuration_by_name, bind, get. simpl.
  destruct (pyval.index name (configuration_names self)) as [i|] eqn:Hi; [|done].
  destruct (_fit_configurations self !! i) as [c|] eqn:Hc; [|done].
  simpl. intros [= ->]. split; [done|].
  apply index_Some in Hi as [Hl _]. unfold configuration_names in Hl.
  rewrite list_lookup_fmap, Hc in Hl. injection Hl as Hl.
  split; [done|]. by eapply list_elem_of_lookup_2.
Qed.

#[local] Arguments add_to : simpl never.

Lemma initial_parameters_state (config : FitConfiguration) (model : FitModelBase.t)
    (x data : list Qc) (s : FitContainer) :
  state (initial_parameters config model x data s) = s.
Proof.
  unfold initial_parameters. destruct (estimator config) as [e|]; [|done].
  destruct (FitModelBase.estimators model !! e) as [estimate|]; [|done].
  unfold bind, emit, call. simpl. by destruct (estimate data x).
Qed.

Lemma fit_data_Ok_inv (self : FitContainer) (fit_config : string) (x data : list Qc)
    (r : string * option lmfit.ModelResult) :
  fit_config ≠ "" →
  fit_config ≠ "No Fit" →
  returned (fit_data _fit_models linspace fit_config x data self) = py.Ok r →
  ∃ config model initial fitted x0 xn high_res_y,
    returned (get_configuration_by_name fit_config (_configuration_model self))
      = py.Ok config ∧
    _fit_models !! _model config = Some model ∧
    returned (initial_parameters config model x data self) = py.Ok initial ∧
    FitModelBase.fit model data (with_custom_parameters config initial) x
      = py.Ok fitted ∧
    head x = Some x0 ∧
    last x = Some xn ∧
    FitModelBase.eval model (lmfit.best_values fitted)
      (linspace x0 xn (length x * 10)) = py.Ok high_res_y ∧
    r = (fit_config,
         Some {| lmfit.params := lmfit.params fitted;
                 lmfit.best_values := lmfit.best_values fitted;
                 lmfit.high_res_best_fit :=
                   Some (linspace x0 xn (length x * 10), high_res_y) |}).
Proof.
  intros Hempty Hnofit H. destruct self as [cm lfr lfc].
  unfold fit_data, with_lock, fit_configured in H.
  rewrite !decide_False in H by done.
  unfold bind at 1 2 3 in H. unfold on_configuration_model in H. simpl in *.
  destruct (get_configuration_by_name fit_config cm) as [[config|e] cm' t] eqn:Hg;
    simpl in H; [|done].
  destruct (get_configuration_by_name_Ok cm fit_config config) as (Hg' & _ & _);
    [by rewrite Hg|]. rewrite Hg in Hg'. injection Hg' as -> ->.
  unfold instantiate in H.
  destruct (_fit_models !! _model config) as [model|] eqn:Hm; simpl in H; [|done].
  unfold bind at 1 in H.
  pose proof (initial_parameters_state config model x data
                {| _configuration_model := cm; _last_fit_result := lfr;
                   _last_fit_config := lfc |}) as Hst.
  destruct (initial_parameters config model x data _) as [[initial|e] s t] eqn:Hi;
    simpl in H, Hst; [|done]. subst s.
  unfold bind at 1 in H. simpl in H. unfold bind at 1 in H. simpl in H.
  destruct (FitModelBase.fit model data _ x) as [fitted|e] eqn:Hfit; simpl in H; [|done].
  unfold bind at 1 in H. simpl in H. unfold first_item in H.
  destruct (head x) as [x0|] eqn:Hx0; simpl in H; [|done].
  unfold bind at 1 in H. simpl in H. unfold last_item in H.
  destruct (last x) as [xn|] eqn:Hxn; simpl in H; [|done].
  unfold bind at 1 in H. simpl in H. unfold bind at 1 in H. simpl in H.
  destruct (FitModelBase.eval model _ _) as [high_res_y|e] eqn:Heval; simpl in H; [|done].
  injection H as <-.
  exists config, model, initial, fitted, x0, xn, high_res_y.
  rewrite Hi. by repeat split.
Qed.


(** ** The mutex *)

Lemma replay_app p (t1 t2 : list Event) : replay p (t1 ++ t2) = replay (replay p t1) t2.
Proof. apply foldl_app. Qed.

Lemma traced_quiet {A} (m : method FitContainer A) :
  (∀ s, state (m s) = s ∧ emitted (m s) = []) → traced m.
Proof. intros H s. destruct (H s) as [-> ->]. by split. Qed.

Lemma traced_emit (e : Event) :
  is_body_event e = true → is_write e = false → traced (emit e).
Proof.
  intros Hb Hw s. simpl. split; [by repeat constructor|].
  by destruct e.
Qed.

Lemma traced_bind {A B} (m : method FitContainer A) (k : A → method FitContainer B) :
  traced m → (∀ a, traced (k a)) → traced (bind m k).
Proof.
  intros Hm Hk s. unfold bind. destruct (Hm s) as [Hf Hr].
  destruct (m s) as [[a|e] s' t]; simpl in *; [|done].
  destruct (Hk a s') as [Hf' Hr'].
  destruct (k a s') as [r s'' t']; simpl in *.
  split; [by apply Forall_app|]. by rewrite replay_app, Hr.
Qed.

Lemma traced_fit_configured (fit_config : string) (x data : list Qc) :
  traced (fit_configured _fit_models linspace fit_config x data).
Proof.
  unfold fit_configured.
  apply traced_bind.
  { intros [cm lfr lfc]. unfold on_configuration_model, get_configuration_by_name, bind, get.
    simpl. destruct (pyval.index fit_config (configuration_names cm)) as [i|]; [|done].
    by destruct (_fit_configurations cm !! i). }
  intros config. apply traced_bind; [by apply traced_quiet|].
  intros model. apply traced_bind.
  { unfold initial_parameters. destruct (estimator config) as [e|]; [|by apply traced_quiet].
    destruct (FitModelBase.estimators model !! e) as [estimate|]; [|by apply traced_quiet].
    apply traced_bind; [by apply traced_emit|]. intros _. by apply traced_quiet. }
  intros initial. apply traced_bind; [by apply traced_emit|].
  intros _. apply traced_bind; [by apply traced_quiet|].
  intros fitted. apply traced_bind; [by apply traced_quiet|].
  intros x0. apply traced_bind; [by apply traced_quiet|].
  intros xn. apply traced_bind; [by apply traced_emit|].
  intros _. apply traced_bind; [by apply traced_quiet|].
  intros high_res_y. apply traced_bind; [|intros _]; intros s; by repeat constructor.
Qed.


(** The body of [fit_data] inside its [with] block. *)
Lemma fit_data_body (self : FitContainer) (fit_config : string) (x data : list Qc) :
  let o := fit_data _fit_models linspace fit_config x data self in
  ∃ body,
    emitted o = lock_acquire :: body ++ [lock_release] ∧
    Forall (λ e, is_body_event e = true) body ∧
    replay (last_fit_pair self) body = last_fit_pair (state o).
Proof.
  unfold fit_data, with_lock.
  match goal with |- context [match ?b self with _ => _ end] => set (inner := b) end.
  assert (Hinner : traced inner).
  { subst inner. case_decide; [by apply traced_quiet|].
    apply traced_bind.
    - case_decide; [|apply traced_fit_configured].
      apply traced_bind; [|intros _]; intros s; by repeat constructor.
    - intros _. apply traced_bind; [by apply traced_quiet|].
      intros s. apply traced_bind; [by apply traced_emit|].
      intros _. by apply traced_quiet. }
  destruct (Hinner self) as [Hf Hr].
  destruct (inner self) as [r s' t]. simpl in *. by exists t.
Qed.


(** C2 (as amended): [fit_data] acquires [_access_lock] first and releases
    it last, so the mutex is held at every point in between, the call of
    the solver included.  While a fit by one thread is in flight, a second
    thread that calls [last_fit] waits for the mutex and has read nothing.
    A read that comes after the fit sees the pair as the fit left it, a
    read that comes before it sees the pair as it was; [last_fit] returns
    the pair it reads. *)
Theorem fit_data_holds_lock (self : FitContainer) (fit_config : string) (x data : list Qc) :
  let o := fit_data _fit_models linspace fit_config x data self in
  let tr := emitted o in
  let rd := emitted (last_fit self) in
  let m0 := fit_and_read tr rd self in
  (∀ k, 0 < k < length tr → holds_lock false (take k tr) = true) ∧
  (∀ k e, tr !! k = Some e → is_call_fit e = true → 0 < k ∧ S k < length tr) ∧
  (∀ k, 0 < k < length tr →
     ∃ m, exec m0 (replicate k 0) = Some m ∧
          owner m = Some 0 ∧ blocked m 1 ∧ observed m = []) ∧
  (∃ m, exec m0 (replicate (length tr) 0 ++ [1; 1; 1]) = Some m ∧
        owner m = None ∧
        observed m = [(1, last_fit_pair (state o))]) ∧
  (∃ m, exec m0 ([1; 1; 1] ++ replicate (length tr) 0) = Some m ∧
        owner m = None ∧
        observed m = [(1, last_fit_pair self)] ∧
        shared m = last_fit_pair (state o)) ∧
  (∀ s, returned (last_fit s) = py.Ok (last_fit_pair s)).
Proof.
  intros o tr rd m0.
  destruct (fit_data_body self fit_config x data) as (body & Htr & Hbody & Hreplay).
  fold o in Htr, Hreplay. fold tr in Htr.
  assert (Hlen : length tr = S (length body + 1)).
  { rewrite Htr. simpl. by rewrite length_app. }
  assert (Hrd : rd = [lock_acquire; read_last_fit; lock_release]) by done.
  subst m0. unfold fit_and_read. rewrite Hrd, Htr.
  split; [|split; [|split; [|split; [|split]]]].
  - intros [|k] Hk; [lia|]. simpl in Hk. rewrite length_app in Hk. simpl in Hk.
    rewrite firstn_cons, take_app_le by lia. simpl.
    apply holds_lock_body. by apply Forall_take.
  - intros [|k] e He Hcall; simpl in He; [by injection He as <-|].
    split; [lia|]. simpl. rewrite length_app. simpl.
    destruct (decide (k < length body)) as [|Hge]; [lia|].
    rewrite lookup_app_r in He by lia.
    destruct (k - length body) as [|[|?]]; simpl in He; [|done..].
    by injection He as <-.
  - intros [|k] Hk; [lia|]. simpl in Hk. rewrite length_app in Hk. simpl in Hk.
    simpl.
    assert (Hsplit : body ++ [lock_release]
                     = take k body ++ (drop k body ++ [lock_release])).
    { by rewrite app_assoc, take_drop. }
    rewrite Hsplit.
    replace (replicate k 0) with (replicate (length (take k body)) 0)
      by (by rewrite length_take_le by lia).
    erewrite exec_body; [|done|by apply Forall_take]. simpl.
    eexists. split; [done|]. simpl. split; [done|]. split; [|done].
    split; [by eexists _, _|done].
  - simpl. rewrite length_app. simpl. rewrite replicate_add, <-app_assoc, exec_app.
    erewrite exec_body; [|done|done]. simpl.
    eexists. split; [done|]. simpl. by rewrite <-Hreplay.
  - simpl. rewrite length_app. simpl. rewrite replicate_add, exec_app.
    erewrite exec_body; [|done|done]. simpl.
    eexists. split; [done|]. simpl. by rewrite <-Hreplay.
  - done.
Qed.



(** ** Further properties of the same methods *)

Lemma set_estimator_attributes (self self' : FitConfiguration) (value : pyval.value) :
  set_estimator _fit_models self value = py.Ok self' →
  _name self' = _name self ∧ _model self' = _model self.
Proof.
  unfold set_estimator. destruct value as [|s|p]; [by intros [= <-]|..];
    destruct (available_estimators _fit_models self) as [available|]; simpl; try done;
    destruct (py.assert _ _); simpl; try done.
  by intros [= <-].
Qed.

Lemma set_custom_parameters_attributes (self self' : FitConfiguration)
    (value : pyval.value) :
  set_custom_parameters _fit_models self value = py.Ok self' →
  _name self' = _name self ∧ _model self' = _model self.
Proof.
  unfold set_custom_parameters. destruct value as [|s|p]; [by intros [= <-]|..];
    destruct (default_parameters _fit_models self) as [defaults|]; simpl; try done;
    destruct (py.assert _ _); simpl; try done.
  by intros [= <-].
Qed.

Lemma __init___attributes (name model : string) (estimator custom_parameters : pyval.value)
    (config : FitConfiguration) :
  __init__ _fit_models (pyval.str name) (pyval.str model) estimator custom_parameters
    = py.Ok config →
  _name config = name ∧ _model config = model.
Proof.
  unfold __init__. simpl.
  destruct (py.assert (negb (bool_decide (name = ""))) _); simpl; [|done].
  destruct (py.assert (bool_decide (is_Some (_fit_models !! model))) _); simpl; [|done].
  destruct (py.assert (negb (bool_decide (name = "No Fit"))) _); simpl; [|done].
  destruct (set_estimator _ _ estimator) as [self|] eqn:He; simpl; [|done].
  intros Hp. apply set_estimator_attributes in He as [Hn Hm].
  apply set_custom_parameters_attributes in Hp as [Hn' Hm']. simpl in *.
  split; congruence.
Qed.

(** X1: adding a configuration under a name that is free and not reserved,
    when the constructor accepts the arguments: the configuration is put at
    the end of the list, the row notifications and
    [sigFitConfigurationsChanged] with all names are emitted, and
    [get_configuration_by_name] then returns it, with that name and model. *)
Theorem add_configuration_appends (self : FitConfigurationsModel) (name model : string)
    (estimator : option string) (custom_parameters : option lmfit.Parameters)
    (config : FitConfiguration) :
  (name ∉ configuration_names self) →
  name ≠ "No Fit" →
  __init__ _fit_models (pyval.str name) (pyval.str model)
    (from_option pyval.str pyval.none estimator)
    (from_option pyval.parameters pyval.none custom_parameters) = py.Ok config →
  let o := add_configuration _fit_models name model estimator custom_parameters self in
  let new_row := length (_fit_configurations self) in
  returned o = py.Ok tt ∧
  _fit_configurations (state o) = _fit_configurations self ++ [config] ∧
  emitted o = [beginInsertRows new_row new_row; endInsertRows;
               sigFitConfigurationsChanged (configuration_names self ++ [name])] ∧
  returned (get_configuration_by_name name (state o)) = py.Ok config ∧
  _name config = name ∧
  _model config = model.
Proof.
  intros Hfresh Hreserved Hinit.
  destruct (__init___attributes _ _ _ _ _ Hinit) as [Hn Hm].
  unfold add_configuration, bind, get, call. rewrite Hinit.
  rewrite (bool_decide_eq_false_2 _ Hfresh), (bool_decide_eq_false_2 _ Hreserved).
  simpl. unfold configuration_names. cbn [_fit_configurations].
  rewrite fmap_app. simpl. rewrite Hn.
  repeat split; try done.
  unfold get_configuration_by_name, bind, get, configuration_names.
  cbn [_fit_configurations returned state emitted].
  rewrite fmap_app. simpl. rewrite Hn.
  rewrite index_app_fresh by done. rewrite length_fmap.
  by rewrite lookup_app_r, Nat.sub_diag.
Qed.

(** X2: [fit_data('', x, data)] returns [('', None)], changes nothing and
    emits no signal. *)
Theorem fit_data_empty_name (self : FitContainer) (x data : list Qc) :
  let o := fit_data _fit_models linspace "" x data self in
  returned o = py.Ok ("", None) ∧ state o = self ∧
  emitted o = [lock_acquire; lock_release].
Proof. repeat split. Qed.

(** X3: when [model.fit] raises, [fit_data] raises the same exception, the
    container is as it was and [sigLastFitResultChanged] is not emitted. *)
Theorem fit_data_solver_failure (self : FitContainer) (fit_config : string)
    (x data : list Qc) (config : FitConfiguration) (model : FitModelBase.t)
    (initial : lmfit.Parameters) (e : py.exception) :
  fit_config ≠ "" →
  fit_config ≠ "No Fit" →
  returned (get_configuration_by_name fit_config (_configuration_model self))
    = py.Ok config →
  _fit_models !! _model config = Some model →
  returned (initial_parameters config model x data self) = py.Ok initial →
  FitModelBase.fit model data (with_custom_parameters config initial) x = py.Raise e →
  let o := fit_data _fit_models linspace fit_config x data self in
  returned o = py.Raise e ∧
  state o = self ∧
  emitted o
  = lock_acquire
    :: emitted (initial_parameters config model x data self)
    ++ [call_fit (_model config) data (with_custom_parameters config initial) x;
        lock_release].
Proof.
  intros Hempty Hnofit Hg Hm Hi Hfit o.
  apply get_configuration_by_name_Ok in Hg as (Hg & _ & _).
  assert (Ho : o = {| returned := py.Raise e; state := self;
                      emitted := lock_acquire
                        :: emitted (initial_parameters config model x data self)
                        ++ [call_fit (_model config) data
                              (with_custom_parameters config initial) x;
                            lock_release] |}); [|by rewrite Ho].
  subst o. destruct self as [cm lfr lfc]. simpl in *.
  unfold fit_data, with_lock, fit_configured.
  rewrite !decide_False by done.
  unfold bind at 1. unfold bind at 1. unfold bind at 1.
  unfold on_configuration_model. simpl. rewrite Hg.
  unfold instantiate. rewrite Hm. simpl.
  unfold bind at 1.
  pose proof (initial_parameters_state config model x data
                {| _configuration_model := cm; _last_fit_result := lfr;
                   _last_fit_config := lfc |}) as Hst.
  destruct (initial_parameters config model x data _) as [r s t]; simpl in *.
  subst r s. unfold bind at 1. simpl. unfold bind at 1. simpl.
  rewrite Hfit. simpl. by rewrite <-app_assoc.
Qed.

(** ** Formatting *)

(** C9: [formatted_result(None, units)] is the empty string.  For a
    result, each parameter gets one entry of the dict handed to
    [create_formatted_output], and the error of the entry is the
    parameter's [stderr] when the parameter varies and has one, [nan] when
    it varies and its [stderr] is [None], and [None] when it is fixed. *)
Theorem formatted_result_spec (parameters_units : option (gmap string string)) :
  formatted_result create_formatted_output None parameters_units = "" ∧
  ∀ fit_result : lmfit.ModelResult,
    let units := default ∅ parameters_units in
    formatted_result create_formatted_output (Some fit_result) parameters_units
      = create_formatted_output (parameters_to_format fit_result units) ∧
    ∀ name : string,
      parameters_to_format fit_result units !! name
        = entry_of units name <$> (lmfit.params fit_result !! name) ∧
      ∀ param : lmfit.Param,
        entry_error (entry_of units name param)
          = (if lmfit.vary param
             then match lmfit.stderr param with
                  | Some err => Some err
                  | None => Some lmfit.nan
                  end
             else None) ∧
        entry_value (entry_of units name param) = lmfit.value param ∧
        entry_unit (entry_of units name param) = default "" (units !! name).
Proof.
  split; [done|]. intros fit_result units. split; [done|]. intros name. split.
  - unfold parameters_to_format. rewrite map_lookup_imap.
    by destruct (lmfit.params fit_result !! name).
  - intros param. unfold entry_of.
    destruct (lmfit.vary param), (lmfit.stderr param); done.
Qed.

End properties.

(* ===================================================================== *)
(** * The properties on the one-model registry *)
(* ===================================================================== *)

(** [fit_data('L3', ...)] on a container that holds [L1] and [L2]. *)
Lemma fit_data_unknown_name_L3 :
  "L3" ≠ "" ∧ "L3" ≠ "No Fit" ∧ ("L3" ∉ fit_configuration_names demo.container) ∧
  returned (fit_data demo._fit_models demo.linspace "L3" demo.x demo.data demo.container)
    = py.Raise (py.ValueError (no_fit_configuration_found "L3")) ∧
  state (fit_data demo._fit_models demo.linspace "L3" demo.x demo.data demo.container) = demo.container.
Proof.
  assert (H1 : "L3" ≠ "") by discriminate.
  assert (H2 : "L3" ≠ "No Fit") by discriminate.
  assert (H3 : "L3" ∉ fit_configuration_names demo.container).
  { apply (bool_decide_eq_false _). vm_compute. reflexivity. }
  pose proof (fit_data_unknown_name demo._fit_models demo.linspace demo.container "L3"
                demo.x demo.data H1 H2 H3) as (Hr & _ & _ & Hs & _).
  repeat split; assumption.
Defined.

(** C1, the claim as it stands: the exception raised for an unknown name
    is no [LookupError], neither from [fit_data] nor from
    [get_configuration_by_name]. *)
Lemma fit_data_unknown_name_no_LookupError :
  returned (fit_data demo._fit_models demo.linspace "L3" demo.x demo.data demo.container)
    = py.Raise (py.ValueError (no_fit_configuration_found "L3")) ∧
  ¬ py.fails_with
      (returned (fit_data demo._fit_models demo.linspace "L3" demo.x demo.data demo.container))
      "LookupError" ∧
  returned (get_configuration_by_name "L3" demo.config_model)
    = py.Raise (py.ValueError (no_fit_configuration_found "L3")) ∧
  ¬ py.fails_with
      (returned (get_configuration_by_name "L3" demo.config_model))
      "LookupError".
Proof. repeat split; vm_compute; discriminate. Qed.

(** Removing [L3] (absent) and [L1] (present) from the model that holds
    [L1] and [L2]. *)
Lemma remove_configuration_L3_L1 :
  (("L3" ∉ configuration_names demo.config_model) ∧
   state (remove_configuration "L3" demo.config_model) = demo.config_model ∧
   emitted (remove_configuration "L3" demo.config_model) = []) ∧
  ("L1" ∈ configuration_names demo.config_model ∧
   NoDup (configuration_names demo.config_model) ∧
   "L1" ∉ configuration_names (state (remove_configuration "L1" demo.config_model))).
Proof.
  assert (H3 : "L3" ∉ configuration_names demo.config_model).
  { apply (bool_decide_eq_false _). vm_compute. reflexivity. }
  assert (H1 : "L1" ∈ configuration_names demo.config_model).
  { apply (bool_decide_eq_true _). vm_compute. reflexivity. }
  assert (Hnd : NoDup (configuration_names demo.config_model)).
  { apply (bool_decide_eq_true _). vm_compute. reflexivity. }
  split.
  - destruct (proj1 (remove_configuration_spec demo.config_model "L3") H3)
      as (_ & Hs & He).
    repeat split; assumption.
  - destruct (proj2 (remove_configuration_spec demo.config_model "L1") H1)
      as (before & config & after & _ & _ & _ & _ & _ & _ & _ & Hex).
    repeat split; [assumption..|]. exact (Hex Hnd).
Defined.

(** C7, the claim as it stands: [load_configs], given the dict of [L2]
    twice, leaves two configurations named [L2]; [remove_configuration]
    then removes one of them, and the name tuple it emits still has the
    removed name. *)
Lemma remove_configuration_emits_removed_name :
  let dict_repr := to_dict demo.dumps demo.L2 in
  let loaded :=
    state (load_configs demo._fit_models demo.loads [dict_repr; dict_repr]
             {| _fit_configurations := [] |}) in
  let o := remove_configuration "L2" loaded in
  "L2" ∈ configuration_names loaded ∧
  returned o = py.Ok tt ∧
  length (_fit_configurations (state o)) + 1 = length (_fit_configurations loaded) ∧
  emitted o = [beginRemoveRows 0 0; endRemoveRows; sigFitConfigurationsChanged ["L2"]] ∧
  "L2" ∈ ["L2"].
Proof.
  repeat split; try (vm_compute; reflexivity);
    apply (bool_decide_eq_true _); vm_compute; reflexivity.
Qed.

(** Adding ['No Fit'] and adding [L1] again. *)
Lemma add_configuration_refused_No_Fit_L1 :
  py.fails_with
    (returned (add_configuration demo._fit_models "No Fit" "Linear" None None
                 demo.config_model)) "AssertionError" ∧
  "L1" ∈ configuration_names demo.config_model ∧
  returned (add_configuration demo._fit_models "L1" "Linear" None None demo.config_model)
    = py.Raise (py.AssertionError (py.already_defined "L1")).
Proof.
  assert (H1 : "L1" ∈ configuration_names demo.config_model).
  { apply (bool_decide_eq_true _). vm_compute. reflexivity. }
  destruct (proj1 (add_configuration_refused demo._fit_models demo.config_model
                     "No Fit" "Linear" None None) eq_refl) as (_ & Hf & _).
  destruct (proj2 (add_configuration_refused demo._fit_models demo.config_model
                     "L1" "Linear" None None) H1) as (Hr & _).
  repeat split; assumption.
Defined.

(** C8, the claim as it stands: the refusals are instances of no class
    named [ValidationError] or [DuplicateNameError]. *)
Lemma add_configuration_no_ValidationError :
  returned (add_configuration demo._fit_models "No Fit" "Linear" None None
              demo.config_model)
    = py.Raise (py.AssertionError py.reserved_name) ∧
  ¬ py.fails_with
      (returned (add_configuration demo._fit_models "No Fit" "Linear" None None
                   demo.config_model)) "ValidationError" ∧
  returned (add_configuration demo._fit_models "L1" "Linear" None None
              demo.config_model)
    = py.Raise (py.AssertionError (py.already_defined "L1")) ∧
  ¬ py.fails_with
      (returned (add_configuration demo._fit_models "L1" "Linear" None None
                   demo.config_model)) "DuplicateNameError".
Proof. repeat split; vm_compute; discriminate. Qed.

(** The round trip of [L2], which has an estimator and custom parameters. *)
Lemma from_dict_to_dict_L2 :
  constructed demo._fit_models demo.L2 ∧
  demo.loads (demo.dumps demo.fixed_slope) = py.Ok demo.fixed_slope ∧
  (from_dict demo._fit_models demo.loads (to_dict demo.dumps demo.L2)).2 = py.Ok demo.L2.
Proof.
  assert (Hc : constructed demo._fit_models demo.L2) by (vm_compute; reflexivity).
  assert (Hl : demo.loads (demo.dumps demo.fixed_slope) = py.Ok demo.fixed_slope)
    by (vm_compute; reflexivity).
  split; [exact Hc|]. split; [exact Hl|].
  destruct (from_dict_to_dict demo._fit_models demo.dumps demo.loads demo.L2 Hc)
    as (config & Hfrom & Hn & Hm & He & Hp).
  - intros p [= <-]. exact Hl.
  - rewrite Hfrom. f_equal. destruct config. simpl in *.
    unfold name, model, estimator, custom_parameters in *. simpl in *. by subst.
Defined.

(** A dict with the four keys and a string that [loads] parses. *)
Lemma from_dict_assigns_custom_parameters_L2 :
  dom (to_dict demo.dumps demo.L2) = dict_keys ∧
  to_dict demo.dumps demo.L2 !! "custom_parameters" = Some (pyval.str "slope-") ∧
  demo.loads "slope-" = py.Ok demo.fixed_slope ∧
  (from_dict demo._fit_models demo.loads (to_dict demo.dumps demo.L2)).1
    !! "custom_parameters" = Some (pyval.parameters demo.fixed_slope) ∧
  (from_dict demo._fit_models demo.loads (to_dict demo.dumps demo.L2)).1
    ≠ to_dict demo.dumps demo.L2.
Proof.
  assert (Hd : dom (to_dict demo.dumps demo.L2) = dict_keys) by apply dom_to_dict.
  assert (Hs : to_dict demo.dumps demo.L2 !! "custom_parameters"
               = Some (pyval.str "slope-")) by (vm_compute; reflexivity).
  assert (Hl : demo.loads "slope-" = py.Ok demo.fixed_slope) by (vm_compute; reflexivity).
  destruct (proj1 (from_dict_assigns_custom_parameters demo._fit_models demo.loads
                     (to_dict demo.dumps demo.L2))
              "slope-" demo.fixed_slope Hd Hs Hl)
    as (_ & Hp & Hne & _).
  repeat split; assumption.
Defined.

(** C10, the claim as it stands: a dict whose ['custom_parameters'] entry
    is a string is left as it was when it has a key beyond the four (the
    assertion on the keys fails first), and when the string does not
    parse. *)
Lemma from_dict_leaves_dict_repr :
  let extra := <["comment" := pyval.str "x"]> (to_dict demo.dumps demo.L2) in
  let unparsed := <["custom_parameters" := pyval.str "slope"]> (to_dict demo.dumps demo.L1) in
  (extra !! "custom_parameters" = Some (pyval.str "slope-") ∧
   demo.loads "slope-" = py.Ok demo.fixed_slope ∧
   from_dict demo._fit_models demo.loads extra
   = (extra, py.Raise (py.AssertionError py.dict_repr_keys))) ∧
  (unparsed !! "custom_parameters" = Some (pyval.str "slope") ∧
   dom unparsed = dict_keys ∧
   (from_dict demo._fit_models demo.loads unparsed).1 = unparsed ∧
   ¬ py.succeeds (from_dict demo._fit_models demo.loads unparsed).2).
Proof.
  repeat split; try (vm_compute; reflexivity).
  vm_compute. intros [].
Qed.


(** A fit of [L1] by one thread and a read of [last_fit] by another. *)
Lemma fit_data_holds_lock_L1 :
  let tr := emitted (fit_data demo._fit_models demo.linspace "L1" demo.x demo.data demo.container) in
  let rd := emitted (last_fit demo.container) in
  (0 < 2 < length tr) ∧
  holds_lock false (take 2 tr) = true ∧
  ∃ m, exec (fit_and_read tr rd demo.container) (replicate 2 0) = Some m ∧ blocked m 1.
Proof.
  intros tr rd.
  assert (Hk : 0 < 2 < length tr) by (vm_compute; lia).
  destruct (fit_data_holds_lock demo._fit_models demo.linspace demo.container "L1" demo.x demo.data)
    as (Hheld & _ & Hblocked & _).
  split; [exact Hk|]. split; [exact (Hheld 2 Hk)|].
  destruct (Hblocked 2 Hk) as (m & Hexec & _ & Hb & _).
  exists m. split; assumption.
Defined.

(** C2, the claim as it stands: in a fit of [L1] the second event is the
    call of the solver; the mutex is held before and after it; and with the
    solver running, a thread that calls [last_fit] cannot take its first
    step. *)
Lemma last_fit_waits_for_fit_data :
  let tr := emitted (fit_data demo._fit_models demo.linspace "L1" demo.x demo.data demo.container) in
  let rd := emitted (last_fit demo.container) in
  ∃ e m,
    tr !! 1 = Some e ∧ is_call_fit e = true ∧
    holds_lock false (take 1 tr) = true ∧
    holds_lock false (take 2 tr) = true ∧
    exec (fit_and_read tr rd demo.container) [0; 0] = Some m ∧
    owner m = Some 0 ∧
    threads m !! 1 = Some rd ∧
    step m 1 = None.
Proof.
  intros tr rd.
  assert (He : ∃ e, tr !! 1 = Some e ∧ is_call_fit e = true).
  { vm_compute. eexists. split; reflexivity. }
  destruct He as (e & He & Hcall).
  assert (Hm : ∃ m, exec (fit_and_read tr rd demo.container) [0; 0] = Some m ∧
                    owner m = Some 0 ∧ threads m !! 1 = Some rd ∧ step m 1 = None).
  { vm_compute. eexists. repeat split. }
  destruct Hm as (m & Hexec & Ho & Ht & Hs).
  exists e, m. repeat split; try assumption; vm_compute; reflexivity.
Qed.

(** Adding [L3] to the model that holds [L1] and [L2]. *)
Lemma add_configuration_appends_L3 :
  ("L3" ∉ configuration_names demo.config_model) ∧
  configuration_names
    (state (add_configuration demo._fit_models "L3" "Linear" None None demo.config_model))
  = ["L1"; "L2"; "L3"].
Proof.
  assert (H3 : "L3" ∉ configuration_names demo.config_model).
  { apply (bool_decide_eq_false _). vm_compute. reflexivity. }
  split; [exact H3|].
  destruct (add_configuration_appends demo._fit_models demo.config_model
              "L3" "Linear" None None
              {| _name := "L3"; _model := "Linear"; _estimator := None;
                 _custom_parameters := None |}
              H3 ltac:(discriminate) eq_refl)
    as (_ & Hlist & _).
  unfold configuration_names. rewrite Hlist. reflexivity.
Defined.

(** A fit of [L1] on two points with the same abscissa, where the
    least-squares line is not defined and the model raises. *)
Lemma fit_data_solver_failure_L1 :
  let x := [np.of_nat 1; np.of_nat 1] in
  let data := [np.of_nat 1; np.of_nat 2] in
  py.fails_with (returned (fit_data demo._fit_models demo.linspace "L1" x data demo.container))
    "ValueError" ∧
  state (fit_data demo._fit_models demo.linspace "L1" x data demo.container) = demo.container.
Proof.
  intros x data.
  destruct (fit_data_solver_failure demo._fit_models demo.linspace demo.container "L1" x data
              demo.L1 demo.Linear (FitModelBase.make_params demo.Linear)
              (py.Foreign ["ValueError"; "Exception"; "BaseException"; "object"])
              ltac:(discriminate) ltac:(discriminate) eq_refl eq_refl eq_refl
              ltac:(vm_compute; reflexivity))
    as (Hr & Hs & _).
  rewrite Hr. split; [reflexivity | exact Hs].
Defined.

(* ===================================================================== *)
(** * Further properties of the module *)
(* ===================================================================== *)

(** ** The constructor and the setters *)

Section configuration.

Context (_fit_models : gmap string FitModelBase.t).

Lemma in_tuple_estimators (m : FitModelBase.t) (e : string) :
  in_tuple (pyval.str e) (map_to_list (FitModelBase.estimators m)).*1 = true
  ↔ is_Some (FitModelBase.estimators m !! e).
Proof.
  simpl. rewrite bool_decide_eq_true, list_elem_of_fmap. split.
  - intros ([k f] & -> & Hin). apply elem_of_map_to_list in Hin. by eexists.
  - intros [f Hf]. exists (e, f). split; [done|]. by apply elem_of_map_to_list.
Qed.

Lemma set_estimator_Ok (self self' : FitConfiguration) (value : pyval.value) :
  set_estimator _fit_models self value = py.Ok self' →
  self' = {| _name := _name self; _model := _model self;
             _estimator := _estimator self';
             _custom_parameters := _custom_parameters self |} ∧
  value = from_option pyval.str pyval.none (_estimator self') ∧
  (∀ e, _estimator self' = Some e →
     ∃ m, _fit_models !! _model self = Some m ∧
          is_Some (FitModelBase.estimators m !! e)).
Proof.
  unfold set_estimator, available_estimators, instantiate.
  destruct value as [|s|p].
  - intros [= <-]. by repeat split.
  - destruct (_fit_models !! _model self) as [m|] eqn:Hm; simpl; [|done].
    destruct (bool_decide _) eqn:Hin; simpl; [|done].
    intros [= <-]. repeat split. intros e [= <-]. exists m. split; [done|].
    by apply in_tuple_estimators.
  - destruct (_fit_models !! _model self) as [m|] eqn:Hm; simpl; done.
Qed.

Lemma set_custom_parameters_Ok (self self' : FitConfiguration) (value : pyval.value) :
  set_custom_parameters _fit_models self value = py.Ok self' →
  self' = {| _name := _name self; _model := _model self;
             _estimator := _estimator self;
             _custom_parameters := _custom_parameters self' |} ∧
  value = from_option pyval.parameters pyval.none (_custom_parameters self') ∧
  (∀ p, _custom_parameters self' = Some p →
     ∃ m, _fit_models !! _model self = Some m ∧
          dom p ⊆ dom (FitModelBase.make_params m)).
Proof.
  unfold set_custom_parameters, default_parameters, instantiate.
  destruct value as [|s|p].
  - intros [= <-]. by repeat split.
  - destruct (_fit_models !! _model self) as [m|] eqn:Hm; simpl; [|done].
    destruct (bool_decide _); simpl; done.
  - destruct (_fit_models !! _model self) as [m|] eqn:Hm; simpl; [|done].
    destruct (bool_decide _) eqn:Hd; simpl; [|done].
    intros [= <-]. repeat split. intros q [= <-]. exists m. split; [done|].
    apply bool_decide_eq_true in Hd. simpl in Hd. set_solver.
Qed.

Lemma set_estimator_str (self : FitConfiguration) (m : FitModelBase.t) (e : string) :
  _fit_models !! _model self = Some m →
  set_estimator _fit_models self (pyval.str e)
  = if decide (is_Some (FitModelBase.estimators m !! e))
    then py.Ok {| _name := _name self; _model := _model self; _estimator := Some e;
                  _custom_parameters := _custom_parameters self |}
    else py.Raise (py.AssertionError py.invalid_estimator).
Proof.
  intros Hm. unfold set_estimator, available_estimators, instantiate. rewrite Hm.
  cbn [py.and_then].
  destruct (in_tuple _ _) eqn:Hin.
  - apply in_tuple_estimators in Hin. by rewrite decide_True.
  - rewrite decide_False; [done|]. intros Hs. apply in_tuple_estimators in Hs. congruence.
Qed.

Lemma set_custom_parameters_parameters (self : FitConfiguration) (m : FitModelBase.t)
    (p : lmfit.Parameters) :
  _fit_models !! _model self = Some m →
  set_custom_parameters _fit_models self (pyval.parameters p)
  = if decide (dom p ⊆ dom (FitModelBase.make_params m))
    then py.Ok {| _name := _name self; _model := _model self;
                  _estimator := _estimator self; _custom_parameters := Some p |}
    else py.Raise (py.AssertionError
                     (py.invalid_model_parameters
                        (dom p ∖ dom (FitModelBase.make_params m)))).
Proof.
  intros Hm. unfold set_custom_parameters, default_parameters, instantiate. rewrite Hm.
  cbn [py.and_then set_of].
  destruct (bool_decide _) eqn:Hd.
  - apply bool_decide_eq_true in Hd. rewrite decide_True; [done|].
    intros k Hk. apply dec_stable. intros Hnk.
    assert (k ∈ dom p ∖ dom (FitModelBase.make_params m)) as Hin by (by apply elem_of_difference).
    rewrite Hd in Hin. by apply not_elem_of_empty in Hin.
  - apply bool_decide_eq_false in Hd. rewrite decide_False; [done|].
    intros Hsub. apply Hd. apply set_eq. intros k.
    rewrite elem_of_difference. split; [intros [Hk Hnk]; by apply Hsub in Hk|].
    intros Hk. by apply not_elem_of_empty in Hk.
Qed.

Lemma __init___Ok_inv (name model estimator custom_parameters : pyval.value)
    (config : FitConfiguration) :
  __init__ _fit_models name model estimator custom_parameters = py.Ok config →
  valid _fit_models config ∧
  name = pyval.str (_name config) ∧
  model = pyval.str (_model config) ∧
  estimator = from_option pyval.str pyval.none (_estimator config) ∧
  custom_parameters
    = from_option pyval.parameters pyval.none (_custom_parameters config).
Proof.
  unfold __init__. destruct name as [|n|]; [done| |done].
  destruct (bool_decide (n = "")) eqn:Hn; [done|]. apply bool_decide_eq_false in Hn.
  cbn [negb py.assert py.and_then].
  destruct model as [|m|]; [done| |done]. cbn [in_fit_models py.and_then].
  destruct (bool_decide (is_Some (_fit_models !! m))) eqn:Hm; [|done].
  apply bool_decide_eq_true in Hm. cbn [py.assert py.and_then].
  destruct (bool_decide (n = "No Fit")) eqn:Hr; [done|]. apply bool_decide_eq_false in Hr.
  cbn [negb py.assert py.and_then].
  destruct (set_estimator _ _ estimator) as [self|] eqn:He; [|done].
  cbn [py.and_then]. intros Hp.
  apply set_estimator_Ok in He as (Hself & -> & He).
  apply set_custom_parameters_Ok in Hp as (Hconfig & -> & Hp).
  destruct self as [n1 m1 e1 c1], config as [n2 m2 e2 c2]. simpl in *.
  injection Hself as -> -> ->. injection Hconfig as -> -> ->.
  destruct Hm as [fm Hfm].
  split; [|done]. split; [done|]. split; [done|].
  exists fm. split; [done|]. split.
  + intros e Heq. destruct (He e Heq) as (fm' & Hfm' & Hin).
    by assert (fm' = fm) as -> by congruence.
  + intros p Heq. destruct (Hp p Heq) as (fm' & Hfm' & Hin).
    by assert (fm' = fm) as -> by congruence.
Qed.

Lemma valid_constructed (config : FitConfiguration) :
  valid _fit_models config → constructed _fit_models config.
Proof.
  intros (Hn & Hr & m & Hm & He & Hp). unfold constructed, __init__.
  unfold __init__.
  rewrite (bool_decide_eq_false_2 _ Hn), (bool_decide_eq_false_2 _ Hr).
  cbn [negb py.assert py.and_then in_fit_models].
  rewrite bool_decide_eq_true_2 by (by rewrite Hm). cbn [py.assert py.and_then].
  destruct config as [n md est cp].
  cbn [_name _model _estimator _custom_parameters] in *.
  assert (Hcp : ∀ self, _model self = md →
            set_custom_parameters _fit_models self
              (from_option pyval.parameters pyval.none cp)
            = py.Ok {| _name := _name self; _model := _model self;
                       _estimator := _estimator self; _custom_parameters := cp |}).
  { intros self Hself. destruct cp as [p|]; [|done]. cbn [from_option].
    rewrite (set_custom_parameters_parameters _ m) by by rewrite Hself.
    by rewrite decide_True by by apply Hp. }
  destruct est as [e|]; cbn [from_option].
  + rewrite (set_estimator_str _ m) by done.
    rewrite decide_True by by apply He. cbn [py.and_then].
    by rewrite Hcp.
  + cbn [set_estimator py.and_then]. by rewrite Hcp.
Qed.

(** X4: the constructor [FitConfiguration(name, model, estimator,
    custom_parameters)] returns a configuration exactly when its arguments
    are the attributes of that configuration and the configuration is
    valid: the name is a string that is not empty and not ['No Fit'], the
    model is registered, the estimator is [None] or one of the model's
    estimators, and the custom parameters are [None] or parameters named
    as default parameters of the model. *)
Theorem __init___Ok_iff (name model estimator custom_parameters : pyval.value)
    (config : FitConfiguration) :
  __init__ _fit_models name model estimator custom_parameters = py.Ok config
  ↔ valid _fit_models config ∧
    name = pyval.str (_name config) ∧
    model = pyval.str (_model config) ∧
    estimator = from_option pyval.str pyval.none (_estimator config) ∧
    custom_parameters
      = from_option pyval.parameters pyval.none (_custom_parameters config).
Proof.
  split; [apply __init___Ok_inv|].
  intros (Hvalid & -> & -> & -> & ->). by apply valid_constructed.
Qed.

Lemma __init___Raise_inv (name model : string) (estimator : option string)
    (custom_parameters : option lmfit.Parameters) (e : py.exception) :
  __init__ _fit_models (pyval.str name) (pyval.str model)
    (from_option pyval.str pyval.none estimator)
    (from_option pyval.parameters pyval.none custom_parameters) = py.Raise e →
  ∃ a, e = py.AssertionError a.
Proof.
  unfold __init__.
  destruct (bool_decide (name = "")); cbn [negb py.assert py.and_then in_fit_models];
    [intros [= <-]; by eexists|].
  destruct (bool_decide (is_Some (_fit_models !! model))) eqn:Hm;
    cbn [py.assert py.and_then]; [|intros [= <-]; by eexists].
  apply bool_decide_eq_true in Hm as [m Hm].
  destruct (bool_decide (name = "No Fit")); cbn [negb py.assert py.and_then];
    [intros [= <-]; by eexists|].
  assert (Hset : ∀ self, _model self = model →
            set_custom_parameters _fit_models self
              (from_option pyval.parameters pyval.none custom_parameters) = py.Raise e →
            ∃ a, e = py.AssertionError a).
  { intros self Hself. destruct custom_parameters as [p|]; cbn [from_option]; [|done].
    rewrite (set_custom_parameters_parameters _ m) by by rewrite Hself.
    case_decide; [done|]. intros [= <-]. by eexists. }
  destruct estimator as [est|]; cbn [from_option].
  - rewrite (set_estimator_str _ m) by done. case_decide; cbn [py.and_then].
    + by apply Hset.
    + intros [= <-]. by eexists.
  - cbn [set_estimator py.and_then]. by apply Hset.
Qed.

(** X5: the [estimator] setter on a valid configuration.  Whenever it
    returns, the configuration is still valid, holds the assigned value and
    has its other attributes unchanged; it accepts [None] and every
    estimator of the model, and refuses any other string with the
    [AssertionError] of its [assert]. *)
Theorem set_estimator_spec (self : FitConfiguration) :
  valid _fit_models self →
  ∃ m, _fit_models !! _model self = Some m ∧
    (∀ value self',
       set_estimator _fit_models self value = py.Ok self' →
       valid _fit_models self' ∧
       value = from_option pyval.str pyval.none (_estimator self') ∧
       _name self' = _name self ∧ _model self' = _model self ∧
       _custom_parameters self' = _custom_parameters self) ∧
    (∀ e, is_Some (FitModelBase.estimators m !! e) →
       set_estimator _fit_models self (pyval.str e)
       = py.Ok {| _name := _name self; _model := _model self; _estimator := Some e;
                  _custom_parameters := _custom_parameters self |}) ∧
    (∀ e, FitModelBase.estimators m !! e = None →
       set_estimator _fit_models self (pyval.str e)
       = py.Raise (py.AssertionError py.invalid_estimator)) ∧
    set_estimator _fit_models self pyval.none
    = py.Ok {| _name := _name self; _model := _model self; _estimator := None;
               _custom_parameters := _custom_parameters self |}.
Proof.
  intros (Hn & Hr & m & Hm & He & Hp). exists m. split; [done|].
  split; [|split; [|split; [|done]]].
  - intros value self' Hset. apply set_estimator_Ok in Hset as (Hself & -> & He').
    destruct self' as [n' m' e' c']. simpl in *. injection Hself as -> -> ->.
    split; [|done]. split; [done|]. split; [done|]. exists m. split; [done|].
    split; [|done]. intros e Heq. destruct (He' e Heq) as (fm & Hfm & Hin).
    by assert (fm = m) as -> by congruence.
  - intros e Hin. rewrite (set_estimator_str _ m) by done. by rewrite decide_True.
  - intros e Hnone. rewrite (set_estimator_str _ m) by done.
    rewrite decide_False; [done|]. rewrite Hnone. by intros [? ?].
Qed.

(** X6: the [custom_parameters] setter on a valid configuration.  Whenever
    it returns, the configuration is still valid, holds the assigned value
    and has its other attributes unchanged; it accepts [None] and every
    [Parameters] whose names are all names of default parameters, and with
    a name that is none it fails with the [AssertionError] that carries the
    set of the invalid names, that name among them. *)
Theorem set_custom_parameters_spec (self : FitConfiguration) :
  valid _fit_models self →
  ∃ m, _fit_models !! _model self = Some m ∧
    (∀ value self',
       set_custom_parameters _fit_models self value = py.Ok self' →
       valid _fit_models self' ∧
       value = from_option pyval.parameters pyval.none (_custom_parameters self') ∧
       _name self' = _name self ∧ _model self' = _model self ∧
       _estimator self' = _estimator self) ∧
    (∀ p, dom p ⊆ dom (FitModelBase.make_params m) →
       set_custom_parameters _fit_models self (pyval.parameters p)
       = py.Ok {| _name := _name self; _model := _model self;
                  _estimator := _estimator self; _custom_parameters := Some p |}) ∧
    (∀ p name, name ∈ dom p → name ∉ dom (FitModelBase.make_params m) →
       set_custom_parameters _fit_models self (pyval.parameters p)
       = py.Raise (py.AssertionError
                     (py.invalid_model_parameters
                        (dom p ∖ dom (FitModelBase.make_params m)))) ∧
       name ∈ dom p ∖ dom (FitModelBase.make_params m)) ∧
    set_custom_parameters _fit_models self pyval.none
    = py.Ok {| _name := _name self; _model := _model self;
               _estimator := _estimator self; _custom_parameters := None |}.
Proof.
  intros (Hn & Hr & m & Hm & He & Hp). exists m. split; [done|].
  split; [|split; [|split; [|done]]].
  - intros value self' Hset. apply set_custom_parameters_Ok in Hset as (Hself & -> & Hp').
    destruct self' as [n' m' e' c']. simpl in *. injection Hself as -> -> ->.
    split; [|done]. split; [done|]. split; [done|]. exists m. split; [done|].
    split; [done|]. intros p Heq. destruct (Hp' p Heq) as (fm & Hfm & Hin).
    by assert (fm = m) as -> by congruence.
  - intros p Hsub. rewrite (set_custom_parameters_parameters _ m) by done.
    by rewrite decide_True.
  - intros p name Hin Hnin. rewrite (set_custom_parameters_parameters _ m) by done.
    rewrite decide_False; [|by intros Hsub; apply Hsub in Hin].
    split; [done|]. by apply elem_of_difference.
Qed.

End configuration.

(** ** The list model *)

Section list_model.

Context (_fit_models : gmap string FitModelBase.t).

Lemma index_first (name : string) (l : list FitConfiguration) :
  match pyval.index name (_name <$> l) with
  | Some i => l !! i
  | None => None
  end = head (filter (λ c, _name c = name) l).
Proof.
  induction l as [|c l IH]; [done|].
  rewrite fmap_cons. cbn [pyval.index]. rewrite filter_cons.
  destruct (decide (_name c = name)) as [Hc|Hc]; [done|].
  by destruct (pyval.index name (_name <$> l)) as [i|].
Qed.

Lemma index_lookup (name : string) (l : list FitConfiguration) (i : nat) :
  pyval.index name (_name <$> l) = Some i → is_Some (l !! i).
Proof.
  intros Hi. apply index_Some in Hi as [Hl _].
  rewrite list_lookup_fmap in Hl. by destruct (l !! i); [eexists|].
Qed.

(** The configuration that [get_configuration_by_name] returns is the first
    one of that name. *)
Lemma get_configuration_by_name_first (self : FitConfigurationsModel) (name : string) :
  get_configuration_by_name name self
  = {| returned :=
         match head (filter (λ c, _name c = name) (_fit_configurations self)) with
         | Some config => py.Ok config
         | None => py.Raise (py.ValueError (no_fit_configuration_found name))
         end;
       state := self; emitted := [] |}.
Proof.
  unfold get_configuration_by_name, bind, get, configuration_names.
  cbn [returned state emitted].
  rewrite <-index_first.
  destruct (pyval.index name (_name <$> _fit_configurations self)) as [i|] eqn:Hi; [|done].
  destruct (index_lookup _ _ _ Hi) as [c Hc]. by rewrite Hc.
Qed.

Lemma pop_split (l : list FitConfiguration) (name : string) (i : nat) :
  pyval.index name (_name <$> l) = Some i →
  ∃ config, l = take i l ++ config :: drop (S i) l ∧ _name config = name ∧
            (name ∉ _name <$> take i l).
Proof.
  intros Hi. destruct (index_lookup _ _ _ Hi) as [config Hc]. exists config.
  apply index_Some in Hi as [Hl Hn]. rewrite list_lookup_fmap, Hc in Hl.
  injection Hl as Hl. split; [by rewrite take_drop_middle|]. split; [done|].
  by rewrite fmap_take.
Qed.

(** X7: [add_configuration] keeps the invariant of the list model (unique
    names, valid configurations), never puts a configuration named
    ['No Fit'] into it, and, when it raises, raises an [AssertionError],
    leaves the model as it was and emits no signal. *)
Theorem add_configuration_invariant (self : FitConfigurationsModel) (name model : string)
    (estimator : option string) (custom_parameters : option lmfit.Parameters) :
  model_invariant _fit_models self →
  let o := add_configuration _fit_models name model estimator custom_parameters self in
  model_invariant _fit_models (state o) ∧
  ("No Fit" ∉ configuration_names (state o)) ∧
  (∀ e, returned o = py.Raise e →
     (∃ a, e = py.AssertionError a) ∧ state o = self ∧ emitted o = []).
Proof.
  intros [Hnodup Hvalid] o.
  assert (Hreserved : ∀ l, Forall (valid _fit_models) l → "No Fit" ∉ _name <$> l).
  { intros l Hl Hin. apply list_elem_of_fmap in Hin as (c & Hc & Hin).
    rewrite Forall_forall in Hl. destruct (Hl c Hin) as (_ & Hr & _). done. }
  subst o. unfold add_configuration, bind, get, call.
  cbn [returned state emitted].
  destruct (bool_decide (name ∈ configuration_names self)) eqn:Hin;
    cbn [negb py.assert].
  { split; [done|]. split; [by apply Hreserved|]. intros e [= <-]. by eauto. }
  apply bool_decide_eq_false in Hin.
  destruct (bool_decide (name = "No Fit")) eqn:Hr; cbn [negb py.assert].
  { split; [done|]. split; [by apply Hreserved|]. intros e [= <-]. by eauto. }
  destruct (__init__ _ _ _ _ _) as [config|e] eqn:Hinit.
  - cbn [returned state emitted emit put].
    pose proof Hinit as Hinit'.
    apply __init___Ok_inv in Hinit' as (Hc & [= Hname] & _).
    assert (Hall : Forall (valid _fit_models) (_fit_configurations self ++ [config])).
    { apply Forall_app. split; [done|]. by apply Forall_singleton. }
    split; [split|split].
    + unfold configuration_names. cbn [_fit_configurations].
      rewrite fmap_app. cbn [fmap list_fmap]. rewrite <-Hname.
      apply NoDup_app. split; [done|]. split; [|apply NoDup_singleton].
      intros x Hx Hx'. apply list_elem_of_singleton in Hx'. by subst.
    + done.
    + by apply Hreserved.
    + by intros e [=].
  - pose proof (__init___Raise_inv _ _ _ _ _ _ Hinit) as Ha.
    split; [done|]. split; [by apply Hreserved|]. by intros e' [= <-].
Qed.

Lemma remove_configuration_run (self : FitConfigurationsModel) (name : string) :
  remove_configuration name self
  = match pyval.index name (configuration_names self) with
    | None => {| returned := py.Ok tt; state := self; emitted := [] |}
    | Some i =>
        let after := {| _fit_configurations := pyval.pop i (_fit_configurations self) |} in
        {| returned := py.Ok tt; state := after;
           emitted := [beginRemoveRows i i; endRemoveRows;
                       sigFitConfigurationsChanged (configuration_names after)] |}
    end.
Proof.
  unfold remove_configuration, bind, get. cbn [returned state emitted].
  by destruct (pyval.index name (configuration_names self)).
Qed.

(** X9: on a model with unique names and valid configurations,
    [remove_configuration(name)] returns without raising and keeps the
    invariant; afterwards [get_configuration_by_name(name)] raises its
    [ValueError], and the lookup of every other name gives what it gave
    before. *)
Theorem remove_configuration_invariant (self : FitConfigurationsModel) (name : string) :
  model_invariant _fit_models self →
  let o := remove_configuration name self in
  returned o = py.Ok tt ∧
  model_invariant _fit_models (state o) ∧
  returned (get_configuration_by_name name (state o))
    = py.Raise (py.ValueError (no_fit_configuration_found name)) ∧
  (∀ other, other ≠ name →
     returned (get_configuration_by_name other (state o))
     = returned (get_configuration_by_name other self)).
Proof.
  intros [Hnodup Hvalid] o. subst o. rewrite remove_configuration_run.
  destruct (pyval.index name (configuration_names self)) as [i|] eqn:Hi.
  - cbn [returned state emitted]. unfold configuration_names in *.
    destruct (pop_split _ _ _ Hi) as (config & Hsplit & Hname & Hbefore).
    set (l := _fit_configurations self) in *.
    assert (Hnames : NoDup (_name <$> pyval.pop i l) ∧ name ∉ _name <$> pyval.pop i l).
    { rewrite Hsplit in Hnodup. rewrite fmap_app, fmap_cons, Hname in Hnodup.
      apply NoDup_app in Hnodup as (Hnd1 & Hdisj & Hnd2).
      apply NoDup_cons in Hnd2 as [Hafter Hnd2].
      unfold pyval.pop. rewrite fmap_app. split.
      - apply NoDup_app. split; [done|]. split; [|done].
        intros x Hx Hx'. apply (Hdisj x Hx). by right.
      - rewrite elem_of_app. by intros [?|?]. }
    split; [done|]. split; [|split].
    + split; [apply Hnames|]. cbn [_fit_configurations]. unfold pyval.pop.
      apply Forall_app. split; [by apply Forall_take | by apply Forall_drop].
    + unfold get_configuration_by_name, bind, get, configuration_names.
      cbn [returned state emitted _fit_configurations].
      destruct Hnames as [_ Hgone]. apply index_None in Hgone. by rewrite Hgone.
    + intros other Hother. rewrite !get_configuration_by_name_first.
      cbn [returned _fit_configurations]. fold l. rewrite Hsplit at 2.
      unfold pyval.pop. rewrite !filter_app, filter_cons_False; [done|].
      congruence.
  - cbn [returned state]. split; [done|]. split; [done|]. split; [|done].
    unfold get_configuration_by_name, bind, get. cbn [returned state emitted].
    by rewrite Hi.
Qed.

(** X8: [add_configuration] returns exactly for the arguments that the
    three views of the model offer: a name that is free, not empty and not
    ['No Fit'], a model of [model_names], an estimator that is [None] or in
    [model_estimators[model]], and custom parameters that are [None] or
    named as entries of [model_default_parameters[model]]. *)
Theorem add_configuration_accepts (self : FitConfigurationsModel) (name model : string)
    (estimator : option string) (custom_parameters : option lmfit.Parameters) :
  returned (add_configuration _fit_models name model estimator custom_parameters self)
    = py.Ok tt
  ↔ (name ∉ configuration_names self) ∧
    name ≠ "No Fit" ∧
    name ≠ "" ∧
    model ∈ model_names _fit_models ∧
    (∀ e, estimator = Some e →
       ∃ available, model_estimators _fit_models !! model = Some available ∧
                    e ∈ available) ∧
    (∀ p, custom_parameters = Some p →
       ∃ defaults, model_default_parameters _fit_models !! model = Some defaults ∧
                   dom p ⊆ dom defaults).
Proof.
  assert (Hnames : model ∈ model_names _fit_models ↔ is_Some (_fit_models !! model)).
  { unfold model_names. rewrite list_elem_of_fmap. split.
    - intros ([k m] & -> & Hin). apply elem_of_map_to_list in Hin. by eexists.
    - intros [m Hm]. exists (model, m). split; [done|]. by apply elem_of_map_to_list. }
  assert (Hin : ∀ (m : FitModelBase.t) e,
            e ∈ (map_to_list (FitModelBase.estimators m)).*1
            ↔ is_Some (FitModelBase.estimators m !! e)).
  { intros m e. rewrite list_elem_of_fmap. split.
    - intros ([k f] & -> & Hk). apply elem_of_map_to_list in Hk. by eexists.
    - intros [f Hf]. exists (e, f). split; [done|]. by apply elem_of_map_to_list. }
  unfold model_estimators, model_default_parameters.
  split.
  - unfold add_configuration, bind, get, call.
    destruct (__init__ _fit_models (pyval.str name) (pyval.str model)
                (from_option pyval.str pyval.none estimator)
                (from_option pyval.parameters pyval.none custom_parameters))
      as [config|e] eqn:Hinit.
    2: { destruct (bool_decide (name ∈ configuration_names self)); [done|].
         by destruct (bool_decide (name = "No Fit")). }
    destruct (bool_decide (name ∈ configuration_names self)) eqn:Hfree; [done|].
    apply bool_decide_eq_false in Hfree.
    destruct (bool_decide (name = "No Fit")) eqn:Hreserved; [done|].
    apply bool_decide_eq_false in Hreserved. intros _.
    apply (__init___Ok_inv _fit_models) in Hinit
      as ((Hn & _ & m & Hm & He & Hp) & [= ->] & [= ->] & Hestimator & Hcustom).
    split; [done|]. split; [done|]. split; [done|].
    split; [by apply Hnames|]. split.
    + intros e ->. simpl in Hestimator. destruct (_estimator config) as [e'|]; [|done].
      injection Hestimator as ->. eexists. rewrite lookup_fmap, Hm. split; [done|].
      apply Hin. by apply He.
    + intros p ->. simpl in Hcustom. destruct (_custom_parameters config) as [p'|]; [|done].
      injection Hcustom as ->. eexists. rewrite lookup_fmap, Hm. split; [done|].
      by apply Hp.
  - intros (Hfree & Hreserved & Hn & Hmodel & He & Hp).
    apply Hnames in Hmodel as [m Hm].
    assert (Hvalid : valid _fit_models
                       {| _name := name; _model := model; _estimator := estimator;
                          _custom_parameters := custom_parameters |}).
    { split; [done|]. split; [done|]. exists m. split; [done|]. simpl. split.
      - intros e ->. destruct (He e eq_refl) as (available & Ha & Hmem).
        rewrite lookup_fmap, Hm in Ha. injection Ha as <-. by apply Hin.
      - intros p ->. destruct (Hp p eq_refl) as (defaults & Hd & Hsub).
        rewrite lookup_fmap, Hm in Hd. by injection Hd as <-. }
    apply (valid_constructed _fit_models) in Hvalid.
    unfold constructed in Hvalid. cbn [_name _model _estimator _custom_parameters] in Hvalid.
    unfold add_configuration, bind, get, call. rewrite Hvalid.
    by rewrite (bool_decide_eq_false_2 _ Hfree), (bool_decide_eq_false_2 _ Hreserved).
Qed.

End list_model.

(** ** The dict representation and the reload *)

Section persistence.

Context (_fit_models : gmap string FitModelBase.t).
Context (dumps : lmfit.Parameters → string).
Context (loads : string → py.result lmfit.Parameters).

(** X10: what [from_dict] does to the dict it is given: the keys stay, the
    values under every key but ['custom_parameters'] stay, and either the
    dict is unchanged or the value under ['custom_parameters'] was a string
    that [loads] parsed and is now the parsed [Parameters]. *)
Theorem from_dict_frame (dict_repr : gmap string pyval.value) :
  let after := (from_dict _fit_models loads dict_repr).1 in
  dom after = dom dict_repr ∧
  (∀ key, key ≠ "custom_parameters" → after !! key = dict_repr !! key) ∧
  (after = dict_repr ∨
   ∃ s p, dict_repr !! "custom_parameters" = Some (pyval.str s) ∧
          loads s = py.Ok p ∧
          after = <["custom_parameters" := pyval.parameters p]> dict_repr).
Proof.
  unfold from_dict. case_decide as Hdom; [|by auto].
  destruct (dict_repr !! "custom_parameters") as [[|s|p]|] eqn:Hcp; try by auto.
  destruct (loads s) as [p|e] eqn:Hloads; [|by auto].
  cbn [fst]. split; [|split].
  - rewrite dom_insert_L. apply set_eq. intros k. rewrite elem_of_union, elem_of_singleton.
    split; [intros [->|?]; [|done]|by auto]. apply elem_of_dom. by eexists.
  - intros key Hkey. by rewrite lookup_insert_ne.
  - right. by exists s, p.
Qed.

Lemma from_dict_again (dict_repr : gmap string pyval.value) :
  from_dict _fit_models loads (from_dict _fit_models loads dict_repr).1
  = from_dict _fit_models loads dict_repr.
Proof.
  unfold from_dict at 2 3. case_decide as Hdom.
  - destruct (dict_repr !! "custom_parameters") as [[|s|p]|] eqn:Hcp; cbn [fst].
    + unfold from_dict. by rewrite decide_True, Hcp by done.
    + destruct (loads s) as [p|e] eqn:Hloads; cbn [fst].
      * unfold from_dict. rewrite decide_True.
        { by rewrite lookup_insert_eq. }
        rewrite dom_insert_L, Hdom. apply set_eq. intros k.
        rewrite elem_of_union, elem_of_singleton. split; [intros [->|?]; [|done]|by auto].
        rewrite <-Hdom. apply elem_of_dom. by eexists.
      * unfold from_dict. by rewrite decide_True, Hcp, Hloads by done.
    + unfold from_dict. by rewrite decide_True, Hcp by done.
    + unfold from_dict. by rewrite decide_True, Hcp by done.
  - cbn [fst]. unfold from_dict. by rewrite decide_False by done.
Qed.

(** X11: [from_dict] on the dict as a first call of [from_dict] left it
    gives the same result as that first call and leaves the dict as it
    is. *)
Theorem from_dict_twice (dict_repr : gmap string pyval.value) :
  let first := from_dict _fit_models loads dict_repr in
  let second := from_dict _fit_models loads first.1 in
  second.1 = first.1 ∧ second.2 = first.2.
Proof.
  intros first second. subst first second. rewrite from_dict_again.
  by split.
Qed.

Lemma default_none_eq (o : option pyval.value) (v : pyval.value) :
  v ≠ pyval.none → default pyval.none o = v → o = Some v.
Proof. destruct o; simpl; [by intros _ -> | by intros Hv <-]. Qed.

(** X12: whenever [from_dict(dict_repr)] returns a configuration, the
    configuration is valid, the dict had exactly the four keys, its name,
    model and estimator are the values of the dict, and its custom
    parameters are what the dict had under ['custom_parameters']: the
    parsed string, the [Parameters] object, or [None]. *)
Theorem from_dict_Ok (dict_repr : gmap string pyval.value) (config : FitConfiguration) :
  (from_dict _fit_models loads dict_repr).2 = py.Ok config →
  valid _fit_models config ∧
  dom dict_repr = dict_keys ∧
  dict_repr !! "name" = Some (pyval.str (_name config)) ∧
  dict_repr !! "model" = Some (pyval.str (_model config)) ∧
  dict_repr !! "estimator"
    = Some (from_option pyval.str pyval.none (_estimator config)) ∧
  match dict_repr !! "custom_parameters" with
  | Some (pyval.str s) => ∃ p, loads s = py.Ok p ∧ _custom_parameters config = Some p
  | Some (pyval.parameters p) => _custom_parameters config = Some p
  | _ => _custom_parameters config = None
  end.
Proof.
  unfold from_dict. case_decide as Hdom; [|done].
  assert (Hkeys : ∀ key, key ∈ dict_keys → is_Some (dict_repr !! key)).
  { intros key Hkey. apply elem_of_dom. by rewrite Hdom. }
  assert (Hconstruct : ∀ d, (∀ key, key ≠ "custom_parameters" → d !! key = dict_repr !! key) →
            construct _fit_models d = py.Ok config →
            valid _fit_models config ∧
            dict_repr !! "name" = Some (pyval.str (_name config)) ∧
            dict_repr !! "model" = Some (pyval.str (_model config)) ∧
            dict_repr !! "estimator"
              = Some (from_option pyval.str pyval.none (_estimator config)) ∧
            default pyval.none (d !! "custom_parameters")
              = from_option pyval.parameters pyval.none (_custom_parameters config)).
  { intros d Hd Hc. unfold construct in Hc.
    apply __init___Ok_inv in Hc as (Hvalid & Hn & Hm & He & Hp).
    rewrite Hd in Hn, Hm, He by done.
    split; [done|]. split; [by apply default_none_eq|].
    split; [by apply default_none_eq|]. split; [|done].
    destruct (Hkeys "estimator") as [v Hv]; [unfold dict_keys; set_solver|].
    rewrite Hv in He |- *. simpl in He. by rewrite He. }
  destruct (dict_repr !! "custom_parameters") as [[|s|p]|] eqn:Hcp.
  - cbn [snd]. intros Hc. destruct (Hconstruct dict_repr) as (? & ? & ? & ? & Hp); [done..|].
    rewrite Hcp in Hp. simpl in Hp. repeat (split; [done|]).
    by destruct (_custom_parameters config).
  - destruct (loads s) as [p|e] eqn:Hloads; cbn [snd]; [|done]. intros Hc.
    destruct (Hconstruct (<["custom_parameters" := pyval.parameters p]> dict_repr))
      as (? & ? & ? & ? & Hp); [by intros; rewrite lookup_insert_ne|done|].
    rewrite lookup_insert_eq in Hp. simpl in Hp. repeat (split; [done|]).
    exists p. split; [done|]. destruct (_custom_parameters config); simpl in Hp; congruence.
  - cbn [snd]. intros Hc. destruct (Hconstruct dict_repr) as (? & ? & ? & ? & Hp); [done..|].
    rewrite Hcp in Hp. simpl in Hp. repeat (split; [done|]).
    destruct (_custom_parameters config); simpl in Hp; congruence.
  - destruct (Hkeys "custom_parameters") as [v Hv]; [unfold dict_keys; set_solver|].
    congruence.
Qed.

(** X13: [dump_configs] returns one dict per held configuration, in the
    order of the list; each has exactly the four keys, with the name, the
    model and the estimator of its configuration, and every value in it is
    [None] or a string. *)
Theorem dump_configs_entries (self : FitConfigurationsModel) :
  length (dump_configs dumps self) = length (_fit_configurations self) ∧
  ∀ i dict_repr,
    dump_configs dumps self !! i = Some dict_repr →
    ∃ config,
      _fit_configurations self !! i = Some config ∧
      dom dict_repr = dict_keys ∧
      dict_repr !! "name" = Some (pyval.str (_name config)) ∧
      dict_repr !! "model" = Some (pyval.str (_model config)) ∧
      dict_repr !! "estimator"
        = Some (from_option pyval.str pyval.none (_estimator config)) ∧
      (∀ key v, dict_repr !! key = Some v → v = pyval.none ∨ ∃ s, v = pyval.str s).
Proof.
  unfold dump_configs. split; [by rewrite length_fmap|].
  intros i dict_repr Hi. rewrite list_lookup_fmap in Hi.
  destruct (_fit_configurations self !! i) as [config|]; [|done].
  injection Hi as <-. exists config. split; [done|]. split; [apply dom_to_dict|].
  unfold to_dict. split; [by simplify_map_eq|]. split; [by simplify_map_eq|].
  split; [by simplify_map_eq|].
  intros key v Hv.
  repeat (apply lookup_insert_Some in Hv as [[_ <-]|[_ Hv]];
          [try (destruct (_estimator config)); try (destruct (_custom_parameters config));
           simpl; by eauto|]).
  by rewrite lookup_empty in Hv.
Qed.

Lemma from_dict_valid (dict_repr : gmap string pyval.value) (config : FitConfiguration) :
  (from_dict _fit_models loads dict_repr).2 = py.Ok config → valid _fit_models config.
Proof.
  unfold from_dict. case_decide; [|done].
  destruct (dict_repr !! "custom_parameters") as [[|s|p]|]; cbn [snd];
    try (intros Hc; by apply __init___Ok_inv in Hc as [? _]).
  destruct (loads s); cbn [snd]; [|done].
  intros Hc. by apply __init___Ok_inv in Hc as [? _].
Qed.

(** What [load_configs] keeps of the dicts, and what it logs. *)
Lemma load_configs_run (configs : list (gmap string pyval.value))
    (self : FitConfigurationsModel) :
  let loaded := from_dict _fit_models loads <$> configs in
  let config_objects :=
    omap (λ r, match r.2 with py.Ok c => Some c | py.Raise _ => None end) loaded in
  let warnings :=
    omap (λ r, match r.2 with py.Ok _ => None | py.Raise _ => Some log_warning end) loaded in
  load_configs _fit_models loads configs self
  = {| returned := py.Ok loaded.*1;
       state := {| _fit_configurations := config_objects |};
       emitted := warnings ++ [beginResetModel; endResetModel;
                               sigFitConfigurationsChanged (_name <$> config_objects)] |}.
Proof. done. Qed.

Lemma omap_partition {A} (l : list (A * py.result FitConfiguration)) :
  length (omap (λ r, match r.2 with py.Ok c => Some c | py.Raise _ => None end) l)
  + length (omap (λ r, match r.2 with
                       | py.Ok _ => None
                       | py.Raise _ => Some log_warning
                       end) l)
  = length l.
Proof.
  induction l as [|[a [c|e]] l IH]; csimpl in *; [done|..]; lia.
Qed.

(** X14: [load_configs] never raises; the list it leaves depends on the
    given dicts only, not on the configurations held before, and holds
    valid configurations only: the configurations that [from_dict] returns
    for the dicts, in the order of the dicts.  It logs one warning for each
    dict on which [from_dict] raises, and no other, then resets the model
    and emits [sigFitConfigurationsChanged] with the new names. *)
Theorem load_configs_resets (configs : list (gmap string pyval.value))
    (self : FitConfigurationsModel) :
  let o := load_configs _fit_models loads configs self in
  let accepted dict_repr :=
    match (from_dict _fit_models loads dict_repr).2 with
    | py.Ok config => Some config
    | py.Raise _ => None
    end in
  let refused dict_repr :=
    match (from_dict _fit_models loads dict_repr).2 with
    | py.Ok _ => None
    | py.Raise _ => Some log_warning
    end in
  py.succeeds (returned o) ∧
  (∀ other, state (load_configs _fit_models loads configs other) = state o) ∧
  Forall (valid _fit_models) (_fit_configurations (state o)) ∧
  _fit_configurations (state o) = omap accepted configs ∧
  ∃ warnings,
    emitted o = warnings ++ [beginResetModel; endResetModel;
                             sigFitConfigurationsChanged (configuration_names (state o))] ∧
    warnings = omap refused configs ∧
    Forall (λ e, e = log_warning) warnings ∧
    length warnings + length (_fit_configurations (state o)) = length configs ∧
    (warnings = [] ↔
       Forall (λ dict_repr, py.succeeds (from_dict _fit_models loads dict_repr).2) configs).
Proof.
  intros o accepted refused. subst o. rewrite load_configs_run.
  cbn [returned state emitted].
  assert (Hkept : ∀ l : list (gmap string pyval.value),
            omap (λ r : gmap string pyval.value * py.result FitConfiguration,
                    match r.2 with py.Ok c => Some c | py.Raise _ => None end)
                 (from_dict _fit_models loads <$> l)
            = omap accepted l).
  { intros l. induction l as [|d l IH]; [done|]. csimpl. rewrite IH.
    reflexivity. }
  assert (Hwarn : ∀ l : list (gmap string pyval.value),
            omap (λ r : gmap string pyval.value * py.result FitConfiguration,
                    match r.2 with py.Ok _ => None | py.Raise _ => Some log_warning end)
                 (from_dict _fit_models loads <$> l)
            = omap refused l).
  { intros l. induction l as [|d l IH]; [done|]. csimpl. rewrite IH.
    reflexivity. }
  split; [done|]. split; [done|]. split; [|split].
  - cbn [_fit_configurations]. apply Forall_forall. intros c Hc.
    apply list_elem_of_omap in Hc as ([d r] & Hin & Hr). cbn [snd] in Hr.
    destruct r as [c'|]; [|done]. injection Hr as ->.
    apply list_elem_of_fmap in Hin as (dict_repr & Heq & _).
    apply (from_dict_valid dict_repr). by rewrite <-Heq.
  - cbn [_fit_configurations]. apply Hkept.
  - eexists. split; [done|]. split; [apply Hwarn|]. split; [|split].
    + apply Forall_forall. intros e He.
      apply list_elem_of_omap in He as ([d r] & _ & Hr). cbn [snd] in Hr.
      destruct r; [done|]. by injection Hr as <-.
    + cbn [_fit_configurations]. rewrite Nat.add_comm, omap_partition.
      by rewrite length_fmap.
    + rewrite Hwarn. clear. induction configs as [|d l IH]; [done|].
      csimpl. rewrite Forall_cons. unfold refused at 1.
      destruct ((from_dict _fit_models loads d).2); simpl.
      * rewrite IH. split; [done | by intros [_ ?]].
      * split; [done | by intros [[] _]].
Qed.

Lemma to_dict_lookups (config : FitConfiguration) :
  to_dict dumps config !! "name" = Some (pyval.str (_name config)) ∧
  to_dict dumps config !! "model" = Some (pyval.str (_model config)) ∧
  to_dict dumps config !! "estimator"
    = Some (from_option pyval.str pyval.none (_estimator config)) ∧
  to_dict dumps config !! "custom_parameters"
    = Some match _custom_parameters config with
           | None => pyval.none
           | Some p => pyval.str (dumps p)
           end.
Proof. unfold to_dict. repeat split; by simplify_map_eq. Qed.

Lemma from_dict_to_dict_eq (config : FitConfiguration) :
  valid _fit_models config →
  (∀ p, _custom_parameters config = Some p → loads (dumps p) = py.Ok p) →
  (from_dict _fit_models loads (to_dict dumps config)).2 = py.Ok config.
Proof.
  intros Hvalid Hround. apply valid_constructed in Hvalid.
  destruct (to_dict_lookups config) as (Hn & Hm & He & Hp).
  unfold from_dict. rewrite decide_True by apply dom_to_dict. rewrite Hp.
  destruct (_custom_parameters config) as [p|] eqn:Hcp.
  - rewrite (Hround p eq_refl). cbn [snd].
    apply construct_to_dict; [done|..]; rewrite ?lookup_insert_ne by done; try done.
    by rewrite lookup_insert_eq, Hcp.
  - cbn [snd]. apply construct_to_dict; try done. by rewrite Hp, Hcp.
Qed.

(** X15: loading what [dump_configs] returns, into any model, restores the
    dumped list of configurations, with no warning, when the dumped
    configurations are valid and [loads] reads back what [dumps] writes of
    their custom parameters. *)
Theorem load_configs_dump_configs (self other : FitConfigurationsModel) :
  Forall (valid _fit_models) (_fit_configurations self) →
  (∀ config p, config ∈ _fit_configurations self →
     _custom_parameters config = Some p → loads (dumps p) = py.Ok p) →
  let o := load_configs _fit_models loads (dump_configs dumps self) other in
  state o = self ∧
  emitted o = [beginResetModel; endResetModel;
               sigFitConfigurationsChanged (configuration_names self)].
Proof.
  intros Hvalid Hround o. subst o. rewrite load_configs_run.
  cbn [state emitted]. unfold dump_configs, configuration_names.
  destruct self as [l]. cbn [_fit_configurations] in *.
  assert (Hobjects :
    omap (λ r : gmap string pyval.value * py.result FitConfiguration,
            match r.2 with py.Ok c => Some c | py.Raise _ => None end)
         (from_dict _fit_models loads <$> (to_dict dumps <$> l)) = l).
  { induction l as [|c l IH]; [done|]. csimpl.
    apply Forall_cons in Hvalid as [Hc Hl].
    rewrite from_dict_to_dict_eq; [|done|by intros p; apply Hround; left].
    f_equal. apply IH; [done|]. intros c' p Hin. apply Hround. by right. }
  assert (Hwarnings :
    omap (λ r : gmap string pyval.value * py.result FitConfiguration,
            match r.2 with py.Ok _ => None | py.Raise _ => Some log_warning end)
         (from_dict _fit_models loads <$> (to_dict dumps <$> l)) = []).
  { induction l as [|c l IH]; [done|]. csimpl.
    apply Forall_cons in Hvalid as [Hc Hl].
    rewrite from_dict_to_dict_eq; [|done|by intros p; apply Hround; left].
    csimpl in Hobjects. rewrite from_dict_to_dict_eq in Hobjects;
      [|done|by intros p; apply Hround; left].
    apply IH; [done| |].
    - intros c' p Hin. apply Hround. by right.
    - by injection Hobjects. }
  by rewrite Hobjects, Hwarnings.
Qed.

(** X16: [load_configs] does not check names against each other: given the
    same loadable dict twice it holds two configurations of one name, and
    the invariant that [add_configuration] keeps is lost. *)
Theorem load_configs_duplicates (dict_repr : gmap string pyval.value)
    (config : FitConfiguration) (self : FitConfigurationsModel) :
  (from_dict _fit_models loads dict_repr).2 = py.Ok config →
  let o := load_configs _fit_models loads [dict_repr; dict_repr] self in
  configuration_names (state o) = [_name config; _name config] ∧
  ¬ model_invariant _fit_models (state o).
Proof.
  intros Hfrom o. subst o. rewrite load_configs_run. cbn [state].
  unfold configuration_names. cbn [_fit_configurations]. csimpl. rewrite Hfrom. csimpl.
  split; [done|]. intros [Hnodup _]. unfold configuration_names in Hnodup.
  cbn [_fit_configurations] in Hnodup. csimpl in Hnodup.
  apply NoDup_cons in Hnodup as [Hnin _]. apply Hnin. by left.
Qed.

End persistence.

(** ** Editing a configuration through the item model *)

Section editing.

Context (_fit_models : gmap string FitModelBase.t).
Context (Parameter_set : lmfit.Param → value_tuple → py.result lmfit.Param).

Lemma set_each_Ok (new_params : gmap string value_tuple)
    (items items' : list (string * lmfit.Param)) :
  set_each Parameter_set new_params items = py.Ok items' →
  Forall2 (λ item item',
             item'.1 = item.1 ∧
             ∃ t, new_params !! item.1 = Some t ∧
                  Parameter_set item.2 t = py.Ok item'.2) items items'.
Proof.
  revert items'. induction items as [|[name p] items IH]; intros items'; simpl.
  - intros [= <-]. constructor.
  - destruct (new_params !! name) as [t|] eqn:Ht; [|done]. simpl.
    destruct (Parameter_set p t) as [p'|] eqn:Hset; [|done]. simpl.
    destruct (set_each _ _ items) as [rest|]; [|done]. simpl.
    intros [= <-]. constructor; [|by apply IH]. simpl. split; [done|]. by exists t.
Qed.

Lemma edited_parameters_Ok (config : FitConfiguration)
    (new_params : gmap string value_tuple) (params : lmfit.Parameters) :
  edited_parameters _fit_models Parameter_set config new_params = py.Ok params →
  ∃ m, _fit_models !! _model config = Some m ∧
       dom params = dom (FitModelBase.make_params m) ∩ dom new_params ∧
       ∀ name p, params !! name = Some p →
         ∃ p0 t, FitModelBase.make_params m !! name = Some p0 ∧
                 new_params !! name = Some t ∧
                 Parameter_set p0 t = py.Ok p.
Proof.
  unfold edited_parameters, default_parameters, instantiate.
  destruct (_fit_models !! _model config) as [m|]; [|done]. cbn [py.and_then].
  set (kept := filter (λ item : string * lmfit.Param, is_Some (new_params !! item.1))
                 (FitModelBase.make_params m)).
  destruct (set_each _ _ _) as [items|] eqn:Hset; [|done]. cbn [py.and_then].
  intros [= <-]. exists m. split; [done|].
  apply set_each_Ok in Hset.
  assert (Hfst : items.*1 = (map_to_list kept).*1).
  { clear -Hset. induction Hset as [|? ? ? ? [Hk _] _ IH]; [done|]. csimpl. by f_equal. }
  assert (Hnodup : NoDup items.*1) by (rewrite Hfst; apply NoDup_fst_map_to_list).
  assert (Hkept : ∀ name, name ∈ dom kept
                          ↔ name ∈ dom (FitModelBase.make_params m) ∩ dom new_params).
  { intros name. rewrite elem_of_intersection, !elem_of_dom. unfold kept.
    split.
    - intros [p Hp]. apply map_lookup_filter_Some in Hp as [Hp Hin]. by eauto.
    - intros [[p Hp] Hin]. exists p. by apply map_lookup_filter_Some. }
  split.
  - apply set_eq. intros name. rewrite <-Hkept, dom_list_to_map_L, Hfst.
    rewrite elem_of_list_to_set, list_elem_of_fmap, elem_of_dom. split.
    + intros ([k p] & -> & Hin). apply elem_of_map_to_list in Hin. by eexists.
    + intros [p Hp]. exists (name, p). split; [done|]. by apply elem_of_map_to_list.
  - intros name p Hp. apply elem_of_list_to_map in Hp; [|done].
    apply list_elem_of_lookup in Hp as [i Hi].
    destruct (Forall2_lookup_r _ _ _ _ _ Hset Hi) as ([k p0] & Hi0 & Hk & t & Ht & Hpt).
    simpl in *. subst k. exists p0, t.
    apply list_elem_of_lookup_2, elem_of_map_to_list in Hi0.
    apply map_lookup_filter_Some in Hi0 as [Hp0 _]. done.
Qed.

(** After the parameters are built and the estimator is assigned, the
    assignment of the custom parameters cannot fail. *)
Lemma setData_custom_parameters (config config1 : FitConfiguration)
    (new_params : gmap string value_tuple) (params : lmfit.Parameters)
    (estimator : pyval.value) :
  edited_parameters _fit_models Parameter_set config new_params = py.Ok params →
  set_estimator _fit_models config estimator = py.Ok config1 →
  set_custom_parameters _fit_models config1 (parameters_or_None params)
  = py.Ok {| _name := _name config; _model := _model config;
             _estimator := _estimator config1;
             _custom_parameters := if decide (size params = 0) then None else Some params |}.
Proof.
  intros Hparams Hest.
  apply edited_parameters_Ok in Hparams as (m & Hm & Hdom & _).
  apply set_estimator_Ok in Hest as (Hconfig1 & _ & _).
  assert (Hn : _name config1 = _name config) by (by rewrite Hconfig1).
  assert (Hmd : _model config1 = _model config) by (by rewrite Hconfig1).
  unfold parameters_or_None. case_decide.
  - cbn [set_custom_parameters]. by rewrite Hn, Hmd.
  - rewrite (set_custom_parameters_parameters _ _ m) by (by rewrite Hmd).
    rewrite decide_True; [by rewrite Hn, Hmd|].
    rewrite Hdom. apply intersection_subseteq_l.
Qed.

(** X17: [setData] either returns [True], or leaves the model as it was
    and emits nothing; for an index at which [data] returns [None] (an
    invalid index, a row out of range) it returns [False]; and when it
    raises, the exception is the one raised while the parameter table was
    built, or the [AssertionError] of the estimator setter. *)
Theorem setData_all_or_nothing (index : QModelIndex)
    (value : option string * gmap string value_tuple) (role : ItemDataRole)
    (self : FitConfigurationsModel) :
  let '(r, after, signals) := setData _fit_models Parameter_set index value role self in
  (r = py.Ok true ∨ (after = self ∧ signals = [])) ∧
  (data index DisplayRole self = None → r = py.Ok false) ∧
  (∀ e, r = py.Raise e →
     ∃ config, data index DisplayRole self = Some config ∧
       (edited_parameters _fit_models Parameter_set config value.2 = py.Raise e ∨
        e = py.AssertionError py.invalid_estimator)).
Proof.
  unfold setData. destruct index as [row|]; [|by repeat split; auto].
  destruct (data (Some row) DisplayRole self) as [config|] eqn:Hdata;
    [|by repeat split; auto].
  destruct (edited_parameters _ _ config value.2) as [params|e] eqn:Hparams.
  - destruct (set_estimator _ config _) as [config1|e] eqn:Hest.
    + rewrite (setData_custom_parameters config config1 value.2 params _ Hparams Hest).
      split; [by left|]. split; [done|]. by intros e [=].
    + split; [by right|]. split; [done|]. intros e' [= <-].
      exists config. split; [done|]. right.
      apply edited_parameters_Ok in Hparams as (m & Hm & _).
      unfold estimator_or_None in Hest.
      destruct value.1 as [est|]; [|done]. case_decide; [done|].
      rewrite (set_estimator_str _ _ m) in Hest by done.
      case_decide; [done|]. by injection Hest as <-.
  - split; [by right|]. split; [done|]. intros e' [= <-]. exists config. by auto.
Qed.

(** X18: whenever [setData] returns [True]: the index was valid and held a
    configuration; only that row of the list changed; one
    [dataChanged(row, row)] was emitted; the names are as before; the
    configuration kept its name and model, has the given estimator ([None]
    for an empty one), and its custom parameters are the default
    parameters of the model that [new_params] names, each as
    [Parameter.set] left it, or [None] when there is none; the invariant of
    the model is kept. *)
Theorem setData_True (index : QModelIndex)
    (value : option string * gmap string value_tuple) (role : ItemDataRole)
    (self after : FitConfigurationsModel) (signals : list ItemSignal) :
  setData _fit_models Parameter_set index value role self = (py.Ok true, after, signals) →
  ∃ row config config' m params,
    index = Some row ∧
    _fit_configurations self !! row = Some config ∧
    _fit_configurations after = <[row := config']> (_fit_configurations self) ∧
    signals = [dataChanged row row] ∧
    configuration_names after = configuration_names self ∧
    _name config' = _name config ∧
    _model config' = _model config ∧
    estimator_or_None value.1 = from_option pyval.str pyval.none (_estimator config') ∧
    _fit_models !! _model config = Some m ∧
    dom params = dom (FitModelBase.make_params m) ∩ dom value.2 ∧
    (∀ name p, params !! name = Some p →
       ∃ p0 t, FitModelBase.make_params m !! name = Some p0 ∧
               value.2 !! name = Some t ∧ Parameter_set p0 t = py.Ok p) ∧
    _custom_parameters config' = (if decide (size params = 0) then None else Some params) ∧
    (model_invariant _fit_models self → model_invariant _fit_models after).
Proof.
  unfold setData. destruct index as [row|]; [|done].
  destruct (data (Some row) DisplayRole self) as [config|] eqn:Hdata; [|done].
  cbn [data] in Hdata.
  destruct (edited_parameters _ _ config value.2) as [params|e] eqn:Hparams; [|done].
  destruct (set_estimator _ config _) as [config1|e] eqn:Hest; [|done].
  rewrite (setData_custom_parameters config config1 value.2 params _ Hparams Hest).
  intros [= <- <-].
  pose proof Hparams as Hparams'.
  apply edited_parameters_Ok in Hparams' as (m & Hm & Hdom & Hset).
  pose proof Hest as Hest'. apply set_estimator_Ok in Hest' as (Hconfig1 & Hvalue & He).
  eexists row, config, _, m, params. cbn [_name _model _estimator _custom_parameters
                                         _fit_configurations].
  assert (Hnames : _name <$> <[row := {| _name := _name config; _model := _model config;
                      _estimator := _estimator config1;
                      _custom_parameters :=
                        if decide (size params = 0) then None else Some params |}]>
                      (_fit_configurations self)
                   = _name <$> _fit_configurations self).
  { rewrite list_fmap_insert. cbn [_name]. apply list_insert_id.
    by rewrite list_lookup_fmap, Hdata. }
  repeat (split; [done|]).
  intros [Hnodup Hvalid]. split.
  - unfold configuration_names. cbn [_fit_configurations]. by rewrite Hnames.
  - cbn [_fit_configurations]. apply Forall_insert; [done|].
    rewrite Forall_forall in Hvalid.
    destruct (Hvalid config) as (Hn & Hr & m' & Hm' & _ & _);
      [by eapply list_elem_of_lookup_2|].
    split; [done|]. split; [done|]. exists m. cbn [_model _estimator _custom_parameters].
    split; [done|]. split.
    + intros e Heq. destruct (He e Heq) as (fm & Hfm & Hin).
      by assert (fm = m) as -> by congruence.
    + intros p. case_decide; [done|]. intros [= <-]. rewrite Hdom.
      apply intersection_subseteq_l.
Qed.

End editing.

(** ** Rows, headers and items *)

Section items.

Lemma getitem_nat {A} (seq : list A) (i : nat) : getitem seq (Z.of_nat i) = seq !! i.
Proof. unfold getitem. rewrite decide_True by lia. by rewrite Nat2Z.id. Qed.

Lemma getitem_negative {A} (seq : list A) (i : nat) :
  getitem seq (- Z.of_nat (S i)) = reverse seq !! i.
Proof.
  unfold getitem. rewrite decide_False by lia.
  destruct (decide (i < length seq)) as [Hlt|Hge].
  - rewrite decide_True by lia. rewrite reverse_lookup by done. f_equal. lia.
  - rewrite decide_False by lia. symmetry. apply lookup_ge_None.
    rewrite length_reverse. lia.
Qed.

(** X19: for a row that is not negative, the vertical header of the row is
    the name of the configuration that [data] returns at that row; [data]
    returns a configuration exactly for the rows below [rowCount()]; and
    when names are unique, [get_configuration_by_name] with the name of
    that configuration returns it. *)
Theorem headerData_data (self : FitConfigurationsModel) (row : nat) :
  headerData (Z.of_nat row) Vertical DisplayRole self
    = _name <$> data (Some row) DisplayRole self ∧
  (is_Some (data (Some row) DisplayRole self) ↔ row < rowCount self) ∧
  (NoDup (configuration_names self) →
   ∀ config, data (Some row) DisplayRole self = Some config →
     returned (get_configuration_by_name (_name config) self) = py.Ok config).
Proof.
  unfold headerData, data, rowCount, configuration_names.
  split; [by rewrite getitem_nat, list_lookup_fmap|]. split; [apply lookup_lt_is_Some|].
  intros Hnodup config Hrow.
  unfold get_configuration_by_name, bind, get, configuration_names.
  cbn [returned state emitted].
  destruct (pyval.index (_name config) (_name <$> _fit_configurations self))
    as [i|] eqn:Hi.
  - apply index_Some in Hi as [Hi _].
    assert (i = row) as ->.
    { eapply NoDup_lookup; [done..|]. by rewrite list_lookup_fmap, Hrow. }
    by rewrite Hrow.
  - apply index_None in Hi. exfalso. apply Hi. apply list_elem_of_fmap.
    exists config. split; [done|]. by eapply list_elem_of_lookup_2.
Qed.

(** X20: [headerData] for any section: vertically, a section that is not
    negative gives the name at that position, if any, and a negative one
    counts from the end (section [-1] is the last name); nothing is
    returned for a role other than [DisplayRole]; horizontally, only
    section [0] has a header. *)
Theorem headerData_section (self : FitConfigurationsModel) (section : Z) :
  headerData section Vertical DisplayRole self
    = (if decide (0 ≤ section)%Z
       then configuration_names self !! Z.to_nat section
       else reverse (configuration_names self) !! Z.to_nat (- section - 1)) ∧
  headerData (-1) Vertical DisplayRole self = last (configuration_names self) ∧
  (∀ orientation role, role ≠ DisplayRole →
     headerData section orientation role self = None) ∧
  headerData section Horizontal DisplayRole self
    = (if decide (section = 0%Z) then Some "Fit Configurations" else None).
Proof.
  unfold headerData. split; [|split; [|split; [by intros orientation []|done]]].
  - case_decide as Hs.
    + rewrite <-(Z2Nat.id section) at 1 by done. apply getitem_nat.
    + replace section with (- Z.of_nat (S (Z.to_nat (- section - 1))))%Z at 1 by lia.
      apply getitem_negative.
  - replace (-1)%Z with (- Z.of_nat 1)%Z by done. rewrite getitem_negative.
    rewrite <-head_reverse. by destruct (reverse _).
Qed.

End items.

(** ** [dict_result] *)

Section export.

Context (attribute : Type).
Context (getattr : lmfit.Param → string → py.result attribute).

Lemma attributes_of_Ok (res : lmfit.Param) (export_keys : list string)
    (dict_i : gmap string (exported_value attribute)) :
  attributes_of attribute getattr res export_keys = py.Ok dict_i →
  dom dict_i = list_to_set export_keys ∧
  ∀ key v, dict_i !! key = Some v →
    ∃ a, getattr res key = py.Ok a ∧ v = exported_attribute attribute a.
Proof.
  revert dict_i. induction export_keys as [|key keys IH]; intros dict_i; simpl.
  - intros [= <-]. split; [by rewrite dom_empty_L|]. intros key v. by rewrite lookup_empty.
  - destruct (getattr res key) as [a|] eqn:Ha; [|done]. simpl.
    destruct (attributes_of _ _ res keys) as [d|]; [|done]. simpl.
    destruct (IH d eq_refl) as [Hdom Hd].
    destruct (d !! key) as [v|] eqn:Hkey; intros [= <-].
    + split; [|done]. rewrite Hdom. apply set_eq. intros k.
      rewrite elem_of_union, elem_of_singleton. split; [by auto|].
      intros [->|?]; [|done]. rewrite <-Hdom. apply elem_of_dom. by eexists.
    + split; [by rewrite dom_insert_L, Hdom|]. intros k v.
      destruct (decide (key = k)) as [<-|Hne].
      * rewrite lookup_insert_eq. intros [= <-]. by exists a.
      * rewrite lookup_insert_ne by done. apply Hd.
Qed.

Lemma attributes_of_Raise (res : lmfit.Param) (export_keys : list string) (key : string)
    (e : py.exception) :
  key ∈ export_keys → getattr res key = py.Raise e →
  ¬ py.succeeds (attributes_of attribute getattr res export_keys).
Proof.
  intros Hin Hraise. induction Hin as [key keys|key k keys Hin IH]; simpl.
  - rewrite Hraise. simpl. by intros [].
  - destruct (getattr res k); simpl; [|by intros []].
    specialize (IH Hraise).
    destruct (attributes_of _ _ res keys); simpl in *; [|by intros []].
    by exfalso; apply IH.
Qed.

Lemma export_each_Ok (parameters_units : gmap string string) (export_keys : list string)
    (items : list (string * lmfit.Param))
    (export_dict out : gmap string (exported_entry attribute)) :
  NoDup items.*1 →
  export_each attribute getattr parameters_units export_keys items export_dict = py.Ok out →
  (∀ key res, (key, res) ∈ items →
     ∃ dict_i,
       attributes_of attribute getattr res export_keys = py.Ok dict_i ∧
       out !! key
       = Some (exported_parameter attribute
                 (<["unit" := exported_unit attribute
                                (default "" (parameters_units !! key))]> dict_i))) ∧
  (∀ key, key ∉ items.*1 → out !! key = export_dict !! key).
Proof.
  revert export_dict. induction items as [|[k res] items IH]; intros export_dict Hnodup; simpl.
  - intros [= <-]. split; [|done]. intros key res Hin. by apply elem_of_nil in Hin.
  - apply NoDup_cons in Hnodup as [Hk Hnodup].
    destruct (attributes_of _ _ res export_keys) as [dict_i|] eqn:Hattr; [|done]. simpl.
    intros Hrest. destruct (IH _ Hnodup Hrest) as [Hitems Hother]. split.
    + intros key res' Hin. apply elem_of_cons in Hin as [[= -> ->]|Hin].
      * exists dict_i. split; [done|]. rewrite Hother by done. by rewrite lookup_insert_eq.
      * by apply Hitems.
    + intros key Hkey. apply not_elem_of_cons in Hkey as [Hne Hkey].
      rewrite Hother by done. by rewrite lookup_insert_ne.
Qed.

Lemma export_each_Raise (parameters_units : gmap string string) (export_keys : list string)
    (items : list (string * lmfit.Param))
    (export_dict : gmap string (exported_entry attribute)) (key : string)
    (res : lmfit.Param) :
  (key, res) ∈ items →
  ¬ py.succeeds (attributes_of attribute getattr res export_keys) →
  ¬ py.succeeds (export_each attribute getattr parameters_units export_keys items export_dict).
Proof.
  intros Hin Hraise. revert export_dict.
  induction items as [|[k r] items IH]; intros export_dict;
    [by apply elem_of_nil in Hin|].
  apply elem_of_cons in Hin as [[= <- <-]|Hin]; simpl.
  - destruct (attributes_of _ _ res export_keys); simpl in *;
      [by exfalso; apply Hraise|by intros []].
  - destruct (attributes_of _ _ r export_keys); simpl; [by apply IH|by intros []].
Qed.

(** X21: whenever [dict_result] returns for a fit result: the keys of the
    dict are ['model'] and the names of the parameters; the entry of a
    parameter has the key ['unit'], with the unit given for the parameter or
    [''], and the export keys, each (other than ['unit']) with the value of
    that attribute of the parameter; and ['model'] holds the name of the
    model unless a parameter has that name. *)
Theorem dict_result_entries (fit_result : exported_result)
    (parameters_units : option (gmap string string)) (export_keys : list string)
    (out : gmap string (exported_entry attribute)) :
  dict_result attribute getattr (Some fit_result) parameters_units export_keys = py.Ok out →
  dom out = {["model"]} ∪ dom (result_params fit_result) ∧
  (∀ name res, result_params fit_result !! name = Some res →
     ∃ dict_i,
       out !! name = Some (exported_parameter attribute dict_i) ∧
       dom dict_i = {["unit"]} ∪ list_to_set export_keys ∧
       dict_i !! "unit"
         = Some (exported_unit attribute
                   (default "" (default ∅ parameters_units !! name))) ∧
       ∀ key v, key ≠ "unit" → dict_i !! key = Some v →
         ∃ a, getattr res key = py.Ok a ∧ v = exported_attribute attribute a) ∧
  (result_params fit_result !! "model" = None →
     out !! "model" = Some (exported_model attribute (model_name fit_result))).
Proof.
  unfold dict_result. intros Hout.
  apply export_each_Ok in Hout as [Hitems Hother]; [|apply NoDup_fst_map_to_list].
  assert (Hparam : ∀ name res, result_params fit_result !! name = Some res →
            ∃ dict_i, attributes_of attribute getattr res export_keys = py.Ok dict_i ∧
              out !! name
              = Some (exported_parameter attribute
                        (<["unit" := exported_unit attribute
                             (default "" (default ∅ parameters_units !! name))]> dict_i))).
  { intros name res Hres. apply Hitems. by apply elem_of_map_to_list. }
  assert (Hrest : ∀ name, result_params fit_result !! name = None →
            out !! name
            = ({["model" := exported_model attribute (model_name fit_result)]}
                 : gmap string (exported_entry attribute)) !! name).
  { intros name Hnone. apply Hother. intros Hin.
    apply list_elem_of_fmap in Hin as ([k res] & -> & Hin).
    apply elem_of_map_to_list in Hin. simpl in *. congruence. }
  split; [|split].
  - apply set_eq. intros name. rewrite elem_of_union, elem_of_singleton, !elem_of_dom.
    destruct (result_params fit_result !! name) as [res|] eqn:Hres.
    + destruct (Hparam name res Hres) as (dict_i & _ & ->). split; [by right; eexists|by eexists].
    + rewrite Hrest by done. destruct (decide (name = "model")) as [->|Hne].
      * rewrite lookup_singleton_eq. split; [by left|by eexists].
      * rewrite lookup_singleton_ne by done. split; [by intros [? ?]|].
        intros [?|[? ?]]; done.
  - intros name res Hres. destruct (Hparam name res Hres) as (dict_i & Hattr & Hname).
    apply attributes_of_Ok in Hattr as [Hdom Hvalues].
    eexists. split; [done|]. split; [by rewrite dom_insert_L, Hdom|].
    split; [by rewrite lookup_insert_eq|].
    intros key v Hkey. rewrite lookup_insert_ne by done. apply Hvalues.
  - intros Hnone. rewrite Hrest by done. by rewrite lookup_singleton_eq.
Qed.

(** X22: when [getattr] raises for an export key on a parameter of the
    result, [dict_result] does not return. *)
Theorem dict_result_raises (fit_result : exported_result)
    (parameters_units : option (gmap string string)) (export_keys : list string)
    (name key : string) (res : lmfit.Param) (e : py.exception) :
  result_params fit_result !! name = Some res →
  key ∈ export_keys →
  getattr res key = py.Raise e →
  ¬ py.succeeds
      (dict_result attribute getattr (Some fit_result) parameters_units export_keys).
Proof.
  intros Hres Hkey Hraise. unfold dict_result.
  apply (export_each_Raise _ _ _ _ name res); [by apply elem_of_map_to_list|].
  by eapply attributes_of_Raise.
Qed.

End export.

(** ** The outcomes of [fit_data] *)

Section fitting.

Context (_fit_models : gmap string FitModelBase.t).
Context (linspace : Qc → Qc → nat → list Qc).

#[local] Arguments add_to : simpl never.

(** [fit_data] on a held configuration of a registered model, once the
    initial parameters are there: the four calls that can still raise, and
    what each outcome leaves. *)
Lemma fit_data_run (self : FitContainer) (fit_config : string) (x data : list Qc)
    (config : FitConfiguration) (model : FitModelBase.t) (initial : lmfit.Parameters) :
  fit_config ≠ "" →
  fit_config ≠ "No Fit" →
  returned (get_configuration_by_name fit_config (_configuration_model self))
    = py.Ok config →
  _fit_models !! _model config = Some model →
  returned (initial_parameters config model x data self) = py.Ok initial →
  let events := emitted (initial_parameters config model x data self) in
  let parameters := with_custom_parameters config initial in
  let called := call_fit (_model config) data parameters x in
  let failed e more :=
    {| returned := py.Raise e; state := self;
       emitted := lock_acquire :: events ++ called :: more ++ [lock_release] |} in
  fit_data _fit_models linspace fit_config x data self
  = match FitModelBase.fit model data parameters x with
    | py.Raise e => failed e []
    | py.Ok fitted =>
        match first_item x with
        | py.Raise e => failed e []
        | py.Ok x0 =>
            match last_item x with
            | py.Raise e => failed e []
            | py.Ok xn =>
                let high_res_x := linspace x0 xn (length x * 10) in
                let evaluated :=
                  call_eval (_model config) (lmfit.best_values fitted) high_res_x in
                match FitModelBase.eval model (lmfit.best_values fitted) high_res_x with
                | py.Raise e => failed e [evaluated]
                | py.Ok high_res_y =>
                    let result :=
                      {| lmfit.params := lmfit.params fitted;
                         lmfit.best_values := lmfit.best_values fitted;
                         lmfit.high_res_best_fit := Some (high_res_x, high_res_y) |} in
                    {| returned := py.Ok (fit_config, Some result);
                       state := {| _configuration_model := _configuration_model self;
                                   _last_fit_result := Some result;
                                   _last_fit_config := fit_config |};
                       emitted := lock_acquire :: events
                                  ++ [called; evaluated;
                                      write_last_fit_result (Some result);
                                      write_last_fit_config fit_config;
                                      sigLastFitResultChanged fit_config (Some result);
                                      lock_release] |}
                end
            end
        end
    end.
Proof.
  intros Hempty Hnofit Hg Hm Hi events parameters called failed.
  apply get_configuration_by_name_Ok in Hg as (Hg & _ & _).
  subst events parameters called failed. destruct self as [cm lfr lfc]. simpl in *.
  unfold fit_data, with_lock, fit_configured.
  rewrite !decide_False by done.
  unfold bind at 1. unfold bind at 1. unfold bind at 1.
  unfold on_configuration_model. simpl. rewrite Hg.
  unfold instantiate. rewrite Hm. simpl.
  unfold bind at 1.
  pose proof (initial_parameters_state config model x data
                {| _configuration_model := cm; _last_fit_result := lfr;
                   _last_fit_config := lfc |}) as Hst.
  destruct (initial_parameters config model x data _) as [r s t]; simpl in *.
  subst r s. unfold bind at 1. simpl. unfold bind at 1. simpl.
  destruct (FitModelBase.fit model data _ x) as [fitted|e]; simpl;
    [|by rewrite <-app_assoc].
  unfold bind at 1. simpl.
  destruct (first_item x) as [x0|e]; simpl; [|by rewrite <-app_assoc].
  unfold bind at 1. simpl.
  destruct (last_item x) as [xn|e]; simpl; [|by rewrite <-app_assoc].
  unfold bind at 1. simpl. unfold bind at 1. simpl.
  destruct (FitModelBase.eval model _ _) as [high_res_y|e]; simpl.
  all: by repeat rewrite <-app_assoc.
Qed.

Lemma initial_parameters_calls (config : FitConfiguration) (model : FitModelBase.t)
    (x data : list Qc) (s : FitContainer) :
  Forall (λ e, is_model_call e = true) (emitted (initial_parameters config model x data s)).
Proof.
  unfold initial_parameters. destruct (estimator config) as [e|]; [|by constructor].
  destruct (FitModelBase.estimators model !! e) as [estimate|]; [|by constructor].
  unfold bind, emit, call. simpl. destruct (estimate data x); by repeat constructor.
Qed.

(** [fit_data] when the configuration, the model or the initial parameters
    are not to be had. *)
Lemma fit_data_early (self : FitContainer) (fit_config : string) (x data : list Qc) :
  fit_config ≠ "" →
  fit_config ≠ "No Fit" →
  let lookup := returned (get_configuration_by_name fit_config (_configuration_model self)) in
  let failed e events :=
    fit_data _fit_models linspace fit_config x data self
    = {| returned := py.Raise e; state := self;
         emitted := lock_acquire :: events ++ [lock_release] |} in
  (∀ e, lookup = py.Raise e → failed e []) ∧
  (∀ config, lookup = py.Ok config → _fit_models !! _model config = None →
     failed (py.KeyError (_model config)) []) ∧
  (∀ config model e, lookup = py.Ok config → _fit_models !! _model config = Some model →
     returned (initial_parameters config model x data self) = py.Raise e →
     failed e (emitted (initial_parameters config model x data self))).
Proof.
  intros Hempty Hnofit lookup failed. subst lookup failed.
  destruct self as [cm lfr lfc]. cbn [_configuration_model].
  rewrite get_configuration_by_name_first. cbn [returned].
  split; [|split].
  - intros e He.
    unfold fit_data, with_lock, fit_configured. rewrite !decide_False by done.
    unfold bind at 1. unfold bind at 1. unfold bind at 1.
    unfold on_configuration_model. simpl. rewrite get_configuration_by_name_first.
    destruct (head _) as [config|]; [done|]. by injection He as <-.
  - intros config Hc Hm.
    unfold fit_data, with_lock, fit_configured. rewrite !decide_False by done.
    unfold bind at 1. unfold bind at 1. unfold bind at 1.
    unfold on_configuration_model. simpl. rewrite get_configuration_by_name_first.
    destruct (head _) as [c|]; [|done]. injection Hc as ->.
    unfold instantiate. by rewrite Hm.
  - intros config model e Hc Hm He.
    unfold fit_data, with_lock, fit_configured. rewrite !decide_False by done.
    unfold bind at 1. unfold bind at 1. unfold bind at 1.
    unfold on_configuration_model. simpl. rewrite get_configuration_by_name_first.
    destruct (head _) as [c|]; [|done]. injection Hc as ->.
    unfold instantiate. rewrite Hm. simpl.
    unfold bind at 1.
    pose proof (initial_parameters_state config model x data
                  {| _configuration_model := cm; _last_fit_result := lfr;
                     _last_fit_config := lfc |}) as Hst.
    destruct (initial_parameters config model x data _) as [r s t]; simpl in *.
    by subst r s.
Qed.

(** C6: in a fit on a held configuration, the initial parameters are
    [model.make_params()] when the configuration has no estimator, and
    what [model.estimators[estimator](data, x)] returns when it has one.
    [model.fit] is then called with [data], [x] and the initial parameters
    in which every entry of [custom_parameters] has replaced the entry of
    the same name: the call is recorded after the call of the estimator,
    what it raises is what [fit_data] raises, and the parameters and best
    values it returns are those of the result that [fit_data] returns. *)
Theorem fit_data_initial_parameters (self : FitContainer) (fit_config : string)
    (x data : list Qc) (config : FitConfiguration) (model : FitModelBase.t) :
  fit_config ≠ "" →
  fit_config ≠ "No Fit" →
  returned (get_configuration_by_name fit_config (_configuration_model self))
    = py.Ok config →
  _fit_models !! _model config = Some model →
  let o := fit_data _fit_models linspace fit_config x data self in
  let fit_called initial events :=
    let parameters := with_custom_parameters config initial in
    (∃ rest,
       emitted o
       = lock_acquire :: events ++ call_fit (_model config) data parameters x :: rest) ∧
    (∀ e, FitModelBase.fit model data parameters x = py.Raise e →
       returned o = py.Raise e ∧
       emitted o
       = lock_acquire
         :: events ++ [call_fit (_model config) data parameters x; lock_release]) ∧
    (∀ fitted, FitModelBase.fit model data parameters x = py.Ok fitted →
       (∀ r, returned o = py.Ok r →
          ∃ result,
            r = (fit_config, Some result) ∧
            lmfit.params result = lmfit.params fitted ∧
            lmfit.best_values result = lmfit.best_values fitted) ∧
       (∀ x0 xn high_res_y,
          head x = Some x0 →
          last x = Some xn →
          FitModelBase.eval model (lmfit.best_values fitted)
            (linspace x0 xn (length x * 10)) = py.Ok high_res_y →
          returned o
          = py.Ok (fit_config,
                   Some {| lmfit.params := lmfit.params fitted;
                           lmfit.best_values := lmfit.best_values fitted;
                           lmfit.high_res_best_fit :=
                             Some (linspace x0 xn (length x * 10), high_res_y) |}))) in
  (estimator config = None → fit_called (FitModelBase.make_params model) []) ∧
  (∀ estimator_name estimate initial,
     estimator config = Some estimator_name →
     FitModelBase.estimators model !! estimator_name = Some estimate →
     estimate data x = py.Ok initial →
     fit_called initial [call_estimator (_model config) estimator_name data x]) ∧
  (∀ initial name,
     with_custom_parameters config initial !! name
     = match custom_parameters config with
       | Some add_parameters =>
           match add_parameters !! name with
           | Some param => Some param
           | None => initial !! name
           end
       | None => initial !! name
       end).
Proof.
  intros Hempty Hnofit Hg Hm o fit_called.
  assert (Hcalled : ∀ initial events,
            initial_parameters config model x data self
            = {| returned := py.Ok initial; state := self; emitted := events |} →
            fit_called initial events).
  { intros initial events Hinit.
    assert (Hi : returned (initial_parameters config model x data self) = py.Ok initial)
      by (by rewrite Hinit).
    pose proof (fit_data_run self fit_config x data config model initial
                  Hempty Hnofit Hg Hm Hi) as Hrun.
    cbv zeta in Hrun. rewrite Hinit in Hrun. cbn [emitted] in Hrun.
    subst fit_called o. cbv zeta. rewrite Hrun. clear Hrun.
    split; [|split].
    - destruct (FitModelBase.fit model data _ x) as [fitted|e]; [|by eexists].
      destruct (first_item x) as [x0|e]; [|by eexists].
      destruct (last_item x) as [xn|e]; [|by eexists].
      destruct (FitModelBase.eval model _ _) as [high_res_y|e]; by eexists.
    - intros e ->. done.
    - intros fitted ->. split.
      + intros r.
        destruct (first_item x) as [x0|e]; [|done].
        destruct (last_item x) as [xn|e]; [|done].
        destruct (FitModelBase.eval model _ _) as [high_res_y|e]; [|done].
        intros [= <-]. by eexists.
      + intros x0 xn high_res_y Hx0 Hxn Heval. unfold first_item, last_item.
        by rewrite Hx0, Hxn, Heval. }
  split; [|split].
  - intros Hest. apply Hcalled. unfold initial_parameters. by rewrite Hest.
  - intros estimator_name estimate initial Hest Hlookup Hestimate. apply Hcalled.
    unfold initial_parameters. rewrite Hest, Hlookup.
    unfold bind, emit, call. simpl. by rewrite Hestimate.
  - intros initial name. unfold with_custom_parameters.
    destruct (custom_parameters config); [apply add_to_lookup | done].
Qed.

(** X23: whenever [fit_data] raises, whatever the arguments: the container
    is as it was, the mutex has been released, and between its acquisition
    and its release nothing happened but calls into the fit model (no
    assignment to the last-fit pair, no signal). *)
Theorem fit_data_raises (self : FitContainer) (fit_config : string) (x data : list Qc)
    (e : py.exception) :
  let o := fit_data _fit_models linspace fit_config x data self in
  returned o = py.Raise e →
  state o = self ∧
  ∃ calls, emitted o = lock_acquire :: calls ++ [lock_release] ∧
           Forall (λ ev, is_model_call ev = true) calls.
Proof.
  intros o Hraise. subst o.
  destruct (decide (fit_config = "")) as [->|Hempty]; [done|].
  destruct (decide (fit_config = "No Fit")) as [->|Hnofit]; [done|].
  destruct (fit_data_early self fit_config x data Hempty Hnofit) as (Hlookup & Hmodel & Hinit).
  destruct (returned (get_configuration_by_name fit_config (_configuration_model self)))
    as [config|e'] eqn:Hg.
  2: { rewrite (Hlookup e' eq_refl) in Hraise |- *. simpl. split; [done|].
       exists []. by split. }
  destruct (_fit_models !! _model config) as [model|] eqn:Hm.
  2: { rewrite (Hmodel config eq_refl Hm) in Hraise |- *. simpl. split; [done|].
       exists []. by split. }
  pose proof (initial_parameters_calls config model x data self) as Hcalls.
  destruct (returned (initial_parameters config model x data self)) as [initial|e'] eqn:Hi.
  2: { rewrite (Hinit config model e' eq_refl Hm Hi) in Hraise |- *. simpl. split; [done|].
       eexists. by split. }
  pose proof (fit_data_run self fit_config x data config model initial
                Hempty Hnofit Hg Hm Hi) as Hrun.
  cbv zeta in Hrun. rewrite Hrun in Hraise |- *. clear Hrun.
  destruct (FitModelBase.fit model data _ x) as [fitted|e1].
  2: { simpl. split; [done|].
       exists (emitted (initial_parameters config model x data self)
               ++ [call_fit (_model config) data (with_custom_parameters config initial) x]).
       split; [by rewrite <- app_assoc|].
       apply Forall_app. split; [done|]. by repeat constructor. }
  destruct (first_item x) as [x0|e1].
  2: { simpl. split; [done|].
       exists (emitted (initial_parameters config model x data self)
               ++ [call_fit (_model config) data (with_custom_parameters config initial) x]).
       split; [by rewrite <- app_assoc|].
       apply Forall_app. split; [done|]. by repeat constructor. }
  destruct (last_item x) as [xn|e1].
  2: { simpl. split; [done|].
       exists (emitted (initial_parameters config model x data self)
               ++ [call_fit (_model config) data (with_custom_parameters config initial) x]).
       split; [by rewrite <- app_assoc|].
       apply Forall_app. split; [done|]. by repeat constructor. }
  destruct (FitModelBase.eval model _ _) as [high_res_y|e1]; [done|].
  simpl. split; [done|].
  exists (emitted (initial_parameters config model x data self)
          ++ [call_fit (_model config) data (with_custom_parameters config initial) x;
              call_eval (_model config) (lmfit.best_values fitted)
                (linspace x0 xn (length x * 10))]).
  split; [by rewrite <- app_assoc|].
  apply Forall_app. split; [done|]. by repeat constructor.
Qed.

(** X24: whenever [fit_data] returns for a name other than ['']: the pair
    it returns has that name, [last_fit] on the container it leaves returns
    the same pair and changes nothing, the configurations are untouched,
    and the last thing before the release of the mutex is the one
    [sigLastFitResultChanged], with that pair. *)
Theorem fit_data_then_last_fit (self : FitContainer) (fit_config : string)
    (x data : list Qc) (r : string * option lmfit.ModelResult) :
  fit_config ≠ "" →
  let o := fit_data _fit_models linspace fit_config x data self in
  returned o = py.Ok r →
  r.1 = fit_config ∧
  returned (last_fit (state o)) = py.Ok r ∧
  state (last_fit (state o)) = state o ∧
  _configuration_model (state o) = _configuration_model self ∧
  ∃ before, emitted o = before ++ [sigLastFitResultChanged r.1 r.2; lock_release] ∧
            Forall (λ ev, ∀ c res, ev ≠ sigLastFitResultChanged c res) before.
Proof.
  intros Hempty o Hok. subst o.
  destruct (decide (fit_config = "No Fit")) as [->|Hnofit].
  { injection Hok as <-. simpl. do 4 (split; [done|]).
    exists [lock_acquire; write_last_fit_result None; write_last_fit_config "No Fit"].
    split; [done|]. by repeat constructor. }
  destruct (fit_data_Ok_inv _ _ self fit_config x data r Hempty Hnofit Hok)
    as (config & model & initial & fitted & x0 & xn & high_res_y
        & Hg & Hm & Hi & Hfit & Hx0 & Hxn & Heval & ->).
  pose proof (initial_parameters_calls config model x data self) as Hcalls.
  pose proof (fit_data_run self fit_config x data config model initial
                Hempty Hnofit Hg Hm Hi) as Hrun.
  cbv zeta in Hrun. unfold first_item, last_item in Hrun.
  rewrite Hfit, Hx0, Hxn, Heval in Hrun. rewrite Hrun. clear Hrun Hok. simpl.
  do 4 (split; [done|]).
  exists (lock_acquire :: emitted (initial_parameters config model x data self)
          ++ [call_fit (_model config) data (with_custom_parameters config initial) x;
              call_eval (_model config) (lmfit.best_values fitted)
                (linspace x0 xn (length x * 10));
              write_last_fit_result
                (Some {| lmfit.params := lmfit.params fitted;
                         lmfit.best_values := lmfit.best_values fitted;
                         lmfit.high_res_best_fit :=
                           Some (linspace x0 xn (length x * 10), high_res_y) |});
              write_last_fit_config fit_config]).
  split.
  { simpl. f_equal. by rewrite <- app_assoc. }
  constructor; [done|]. apply Forall_app. split.
  - eapply Forall_impl; [exact Hcalls|]. intros ev Hev c res ->. done.
  - by repeat constructor.
Qed.

(** X25: [fit_data] on an empty [x], for a held configuration of a
    registered model: [model.fit] is still called, and when it returns,
    [x[0]] raises [IndexError]; the result of the fit is dropped, no signal
    is emitted and the container is as it was. *)
Theorem fit_data_empty_x (self : FitContainer) (fit_config : string) (data : list Qc)
    (config : FitConfiguration) (model : FitModelBase.t) (initial : lmfit.Parameters)
    (fitted : lmfit.ModelResult) :
  fit_config ≠ "" →
  fit_config ≠ "No Fit" →
  returned (get_configuration_by_name fit_config (_configuration_model self))
    = py.Ok config →
  _fit_models !! _model config = Some model →
  returned (initial_parameters config model [] data self) = py.Ok initial →
  FitModelBase.fit model data (with_custom_parameters config initial) [] = py.Ok fitted →
  let o := fit_data _fit_models linspace fit_config [] data self in
  returned o = py.Raise py.IndexError ∧
  state o = self ∧
  emitted o
  = lock_acquire
    :: emitted (initial_parameters config model [] data self)
    ++ [call_fit (_model config) data (with_custom_parameters config initial) [];
        lock_release].
Proof.
  intros Hempty Hnofit Hg Hm Hi Hfit o. subst o.
  pose proof (fit_data_run self fit_config [] data config model initial
                Hempty Hnofit Hg Hm Hi) as Hrun.
  cbv zeta in Hrun. rewrite Hfit in Hrun. by rewrite Hrun.
Qed.

End fitting.

(** ** The extra properties on the configurations [L1], [L2] and [C1] *)

Lemma valid_L1 : valid demo._fit_models demo.L1.
Proof.
  split; [discriminate|]. split; [discriminate|]. exists demo.Linear.
  split; [reflexivity|]. split; intros ? [=].
Qed.

Lemma valid_L2 : valid demo._fit_models demo.L2.
Proof.
  apply (__init___Ok_inv demo._fit_models (pyval.str "L2") (pyval.str "Linear")
           (pyval.str "default") (pyval.parameters demo.fixed_slope)).
  vm_compute. reflexivity.
Qed.

Lemma model_invariant_config_model : model_invariant demo._fit_models demo.config_model.
Proof.
  split.
  - apply (bool_decide_unpack _). vm_compute. exact I.
  - constructor; [exact valid_L1|]. constructor; [exact valid_L2|]. constructor.
Qed.

(** The estimator setter on [L1] refuses a name that is no estimator of
    [Linear]. *)
Lemma set_estimator_spec_L1 :
  valid demo._fit_models demo.L1 ∧
  set_estimator demo._fit_models demo.L1 (pyval.str "nope")
  = py.Raise (py.AssertionError py.invalid_estimator).
Proof.
  split; [exact valid_L1|].
  destruct (set_estimator_spec demo._fit_models demo.L1 valid_L1)
    as (m & Hm & _ & _ & Hrefuse & _).
  apply Hrefuse. change (Some demo.Linear = Some m) in Hm. injection Hm as <-.
  reflexivity.
Defined.

(** The setter of the custom parameters on [L1] accepts a fixed slope. *)
Lemma set_custom_parameters_spec_L1 :
  valid demo._fit_models demo.L1 ∧
  set_custom_parameters demo._fit_models demo.L1 (pyval.parameters demo.fixed_slope)
  = py.Ok {| _name := "L1"; _model := "Linear"; _estimator := None;
             _custom_parameters := Some demo.fixed_slope |}.
Proof.
  split; [exact valid_L1|].
  destruct (set_custom_parameters_spec demo._fit_models demo.L1 valid_L1)
    as (m & Hm & _ & Haccept & _).
  apply Haccept. change (Some demo.Linear = Some m) in Hm. injection Hm as <-.
  apply (bool_decide_unpack _). vm_compute. exact I.
Defined.

(** Adding [L3] to the model that holds [L1] and [L2] keeps the invariant. *)
Lemma add_configuration_invariant_L3 :
  model_invariant demo._fit_models demo.config_model ∧
  model_invariant demo._fit_models
    (state (add_configuration demo._fit_models "L3" "Linear" None None demo.config_model)).
Proof.
  split; [exact model_invariant_config_model|].
  exact (proj1 (add_configuration_invariant demo._fit_models demo.config_model
                  "L3" "Linear" None None model_invariant_config_model)).
Defined.

(** Removing [L1] from the model that holds [L1] and [L2]. *)
Lemma remove_configuration_invariant_L1 :
  model_invariant demo._fit_models demo.config_model ∧
  returned (get_configuration_by_name "L1"
              (state (remove_configuration "L1" demo.config_model)))
  = py.Raise (py.ValueError (no_fit_configuration_found "L1")).
Proof.
  split; [exact model_invariant_config_model|].
  destruct (remove_configuration_invariant demo._fit_models demo.config_model "L1"
              model_invariant_config_model)
    as (_ & _ & Hgone & _).
  exact Hgone.
Defined.

(** [from_dict] on the dict of [L2]. *)
Lemma from_dict_Ok_L2 :
  (from_dict demo._fit_models demo.loads (to_dict demo.dumps demo.L2)).2 = py.Ok demo.L2 ∧
  valid demo._fit_models demo.L2.
Proof.
  assert (H : (from_dict demo._fit_models demo.loads (to_dict demo.dumps demo.L2)).2
              = py.Ok demo.L2) by (vm_compute; reflexivity).
  split; [exact H|].
  exact (proj1 (from_dict_Ok demo._fit_models demo.loads _ _ H)).
Defined.

(** The dump of [L1] and [L2], loaded into an empty model. *)
Lemma load_configs_dump_configs_L1_L2 :
  Forall (valid demo._fit_models) (_fit_configurations demo.config_model) ∧
  state (load_configs demo._fit_models demo.loads
           (dump_configs demo.dumps demo.config_model) {| _fit_configurations := [] |})
  = demo.config_model.
Proof.
  split; [exact (proj2 model_invariant_config_model)|].
  refine (proj1 (load_configs_dump_configs demo._fit_models demo.dumps demo.loads
                   demo.config_model {| _fit_configurations := [] |}
                   (proj2 model_invariant_config_model) _)).
  intros config p Hin Hp.
  apply elem_of_cons in Hin as [->|Hin]; [discriminate Hp|].
  apply elem_of_cons in Hin as [->|Hin]; [|by apply elem_of_nil in Hin].
  injection Hp as <-. vm_compute. reflexivity.
Defined.

(** The dict of [L2], given twice. *)
Lemma load_configs_duplicates_L2 :
  (from_dict demo._fit_models demo.loads (to_dict demo.dumps demo.L2)).2 = py.Ok demo.L2 ∧
  configuration_names
    (state (load_configs demo._fit_models demo.loads
              [to_dict demo.dumps demo.L2; to_dict demo.dumps demo.L2] demo.config_model))
  = ["L2"; "L2"].
Proof.
  assert (H : (from_dict demo._fit_models demo.loads (to_dict demo.dumps demo.L2)).2
              = py.Ok demo.L2) by (vm_compute; reflexivity).
  split; [exact H|].
  exact (proj1 (load_configs_duplicates demo._fit_models demo.loads _ _ demo.config_model H)).
Defined.

(** An edit of [L1]: the estimator ['default'] and a fixed slope. *)
Lemma setData_True_L1 :
  let value := (Some "default", {[ "slope" := demo.slope_tuple ]}) in
  let o := setData demo._fit_models demo.Parameter_set (Some 0) value EditRole
             demo.config_model in
  o.1.1 = py.Ok true ∧
  configuration_names o.1.2 = ["L1"; "L2"] ∧
  o.2 = [dataChanged 0 0].
Proof.
  intros value o.
  assert (H : o = (py.Ok true, o.1.2, o.2)) by (vm_compute; reflexivity).
  destruct (setData_True demo._fit_models demo.Parameter_set (Some 0) value EditRole
              demo.config_model o.1.2 o.2 H)
    as (row & config & config' & m & params & Hrow & _ & _ & Hsignals & Hnames & _).
  injection Hrow as <-.
  split; [by rewrite H|]. split; [by rewrite Hnames|]. exact Hsignals.
Defined.

(** The export of the values and the errors of a result of [Linear]. *)
Lemma dict_result_entries_Linear :
  ∃ out,
    dict_result demo.attribute demo.getattr (Some demo.exported) None ["value"; "stderr"]
    = py.Ok out ∧
    dom out = {[ "model" ]} ∪ dom (result_params demo.exported).
Proof.
  assert (H : ∃ out, dict_result demo.attribute demo.getattr (Some demo.exported) None
                       ["value"; "stderr"] = py.Ok out).
  { vm_compute. eexists. reflexivity. }
  destruct H as [out H]. exists out. split; [exact H|].
  exact (proj1 (dict_result_entries demo.attribute demo.getattr demo.exported None
                  ["value"; "stderr"] out H)).
Defined.

(** The export of a key that is no attribute of a parameter. *)
Lemma dict_result_raises_Linear :
  let e := py.Foreign ["AttributeError"; "Exception"; "BaseException"; "object"] in
  demo.getattr (demo.param 0%Qc true) "unit_of" = py.Raise e ∧
  ¬ py.succeeds
      (dict_result demo.attribute demo.getattr (Some demo.exported) None
         ["value"; "unit_of"]).
Proof.
  intros e. split; [reflexivity|].
  apply (dict_result_raises demo.attribute demo.getattr demo.exported None
           ["value"; "unit_of"] "offset" "unit_of" (demo.param 0%Qc true) e).
  - reflexivity.
  - apply (bool_decide_unpack _). vm_compute. exact I.
  - reflexivity.
Defined.

(** A fit with a name that the container does not hold. *)
Lemma fit_data_raises_L3 :
  let o := fit_data demo._fit_models demo.linspace "L3" demo.x demo.data demo.container in
  returned o = py.Raise (py.ValueError (no_fit_configuration_found "L3")) ∧
  state o = demo.container.
Proof.
  intros o.
  assert (H : returned o = py.Raise (py.ValueError (no_fit_configuration_found "L3")))
    by reflexivity.
  split; [exact H|].
  exact (proj1 (fit_data_raises demo._fit_models demo.linspace demo.container "L3" demo.x demo.data _ H)).
Defined.

(** [last_fit] after the fit of [L1] on four points. *)
Lemma fit_data_then_last_fit_L1 :
  let o := fit_data demo._fit_models demo.linspace "L1" demo.x demo.data demo.container in
  "L1" ≠ "" ∧
  ∃ r, returned o = py.Ok r ∧ r.1 = "L1" ∧ returned (last_fit (state o)) = py.Ok r.
Proof.
  intros o.
  assert (H1 : "L1" ≠ "") by discriminate.
  split; [exact H1|].
  assert (Hr : ∃ r, returned o = py.Ok r) by (vm_compute; eexists; reflexivity).
  destruct Hr as [r Hr]. exists r. split; [exact Hr|].
  destruct (fit_data_then_last_fit demo._fit_models demo.linspace demo.container "L1" demo.x demo.data
              r H1 Hr)
    as (Hname & Hlast & _).
  split; [exact Hname | exact Hlast].
Defined.

(** A fit of the constant [C1] on no points. *)
Lemma fit_data_empty_x_C1 :
  let o := fit_data demo.more_fit_models demo.linspace "C1" [] [] demo.constant_container in
  returned o = py.Raise py.IndexError ∧ state o = demo.constant_container.
Proof.
  intros o.
  destruct (fit_data_empty_x demo.more_fit_models demo.linspace demo.constant_container "C1" []
              demo.C1 demo.Constant (FitModelBase.make_params demo.Constant)
              {| lmfit.params := FitModelBase.make_params demo.Constant;
                 lmfit.best_values := {[ "offset" := 0%Qc ]};
                 lmfit.high_res_best_fit := None |}
              ltac:(discriminate) ltac:(discriminate) eq_refl eq_refl eq_refl eq_refl)
    as (Hr & Hs & _).
  split; [exact Hr | exact Hs].
Defined.

(** The fit of [L1] (defaults) and of [L2] (estimator and a custom
    parameter) on four points. *)
Lemma fit_data_initial_parameters_L1_L2 :
  let o1 := fit_data demo._fit_models demo.linspace "L1" demo.x demo.data demo.container in
  let o2 := fit_data demo._fit_models demo.linspace "L2" demo.x demo.data demo.container in
  (∃ fitted result rest,
     FitModelBase.fit demo.Linear demo.data (FitModelBase.make_params demo.Linear) demo.x
       = py.Ok fitted ∧
     emitted o1
     = lock_acquire
       :: call_fit "Linear" demo.data (FitModelBase.make_params demo.Linear) demo.x
       :: rest ∧
     returned o1 = py.Ok ("L1", Some result) ∧
     lmfit.params result = lmfit.params fitted) ∧
  (∃ estimate initial fitted result rest,
     FitModelBase.estimators demo.Linear !! "default" = Some estimate ∧
     estimate demo.data demo.x = py.Ok initial ∧
     FitModelBase.fit demo.Linear demo.data (with_custom_parameters demo.L2 initial) demo.x
       = py.Ok fitted ∧
     emitted o2
     = lock_acquire
       :: call_estimator "Linear" "default" demo.data demo.x
       :: call_fit "Linear" demo.data (with_custom_parameters demo.L2 initial) demo.x
       :: rest ∧
     returned o2 = py.Ok ("L2", Some result) ∧
     lmfit.params result = lmfit.params fitted ∧
     with_custom_parameters demo.L2 initial !! "slope" = demo.fixed_slope !! "slope" ∧
     with_custom_parameters demo.L2 initial !! "offset" = initial !! "offset").
Proof.
  intros o1 o2.
  assert (Hm : demo._fit_models !! "Linear" = Some demo.Linear) by reflexivity.
  split.
  - destruct (fit_data_initial_parameters demo._fit_models demo.linspace demo.container
                "L1" demo.x demo.data demo.L1 demo.Linear
                ltac:(discriminate) ltac:(discriminate) eq_refl Hm)
      as (Hnone & _ & _).
    destruct (Hnone eq_refl) as ([rest Hrest] & _ & Hfitted).
    assert (Hfit : ∃ fitted,
              FitModelBase.fit demo.Linear demo.data
                (with_custom_parameters demo.L1 (FitModelBase.make_params demo.Linear))
                demo.x = py.Ok fitted).
    { vm_compute. eexists. reflexivity. }
    destruct Hfit as [fitted Hfit].
    assert (Hr : ∃ r, returned o1 = py.Ok r) by (vm_compute; eexists; reflexivity).
    destruct Hr as [r Hr].
    destruct (proj1 (Hfitted fitted Hfit) r Hr) as (result & -> & Hparams & _).
    exists fitted, result, rest.
    split; [exact Hfit|]. split; [exact Hrest|]. split; [exact Hr | exact Hparams].
  - destruct (fit_data_initial_parameters demo._fit_models demo.linspace demo.container
                "L2" demo.x demo.data demo.L2 demo.Linear
                ltac:(discriminate) ltac:(discriminate) eq_refl Hm)
      as (_ & Hsome & Hlookup).
    assert (He : ∃ estimate initial,
              FitModelBase.estimators demo.Linear !! "default" = Some estimate ∧
              estimate demo.data demo.x = py.Ok initial).
    { eexists _, _. split; reflexivity. }
    destruct He as (estimate & initial & He & Hi).
    destruct (Hsome "default" estimate initial eq_refl He Hi)
      as ([rest Hrest] & _ & Hfitted).
    assert (Hfit : ∃ fitted,
              FitModelBase.fit demo.Linear demo.data
                (with_custom_parameters demo.L2 initial) demo.x = py.Ok fitted).
    { destruct (FitModelBase.fit demo.Linear demo.data
                  (with_custom_parameters demo.L2 initial) demo.x) as [fitted|e] eqn:Hfit;
        [by eexists|].
      exfalso. destruct (proj1 (proj2 (Hsome "default" estimate initial eq_refl He Hi)) e Hfit)
        as [Hraise _].
      assert (Hr : ∃ r, returned o2 = py.Ok r) by (vm_compute; eexists; reflexivity).
      destruct Hr as [r Hr]. unfold o2 in Hr. rewrite Hr in Hraise. discriminate. }
    destruct Hfit as [fitted Hfit].
    assert (Hr : ∃ r, returned o2 = py.Ok r) by (vm_compute; eexists; reflexivity).
    destruct Hr as [r Hr].
    destruct (proj1 (Hfitted fitted Hfit) r Hr) as (result & -> & Hparams & _).
    exists estimate, initial, fitted, result, rest.
    split; [exact He|]. split; [exact Hi|]. split; [exact Hfit|].
    split; [exact Hrest|]. split; [exact Hr|]. split; [exact Hparams|].
    split; rewrite Hlookup; reflexivity.
Defined.
